(** * ALT price relay: a shallow embedding of the Express server

    The repository is a small Node/Express relay.  A request names a grading
    certificate ("slab number"); the server resolves it to an internal asset
    id through one GraphQL endpoint, collects market transactions for a matrix
    of (grading company, grade) pairs through a second endpoint, and rates the
    dispersion of recent prices.

    Four revisions of the server are in the sources.  The first two
    ([server/main.js], and the same with its configuration read from the
    environment) resolve the certificate and query PSA 10.0 only.  The third
    adds the grade matrix, the fallback and a confidence level over a single
    window; its estimator is in the module [Legacy].  The fourth, modelled
    in full, rates four windows; its resolver also logs what it found.  The
    aggregator and the handler of the last two revisions are the same text.

    The embedding follows the JavaScript:
    - JavaScript values are the inductive [JsVal]; numbers are IEEE binary64,
      that is Rocq's primitive [float];
    - [async] functions that [await fetch] are computations in a state and
      exception monad [M] over a [World] that holds the upstream service, the
      log of requests sent so far and the wall clock;
    - dates are time values handled by the abstract operations of ECMA-262;
    - the built-ins whose result depends on the JavaScript host ([parseFloat],
      the [Date] constructor applied to a value, the local time zone) are the
      fields of a [Host];
    - [console.log] writes are not modelled, but the property reads and calls
      made to compute their arguments are, since those can throw. *)

From Stdlib Require Import ZArith List String Ascii Bool Floats Lia.
Import ListNotations.

Local Open Scope string_scope.
Local Open Scope list_scope.
Local Open Scope Z_scope.

(** ** JavaScript values *)

#[local] Unset Elimination Schemes.
Inductive JsVal : Type :=
| JUndefined
| JNull
| JBool (b : bool)
| JNum (x : float)
| JStr (s : string)
| JArr (items : list JsVal)
| JObj (fields : list (string * JsVal)).
#[local] Set Elimination Schemes.

Inductive JsError : Type :=
| TypeError      (* property read on null/undefined, call or iteration of a non-function/non-iterable *)
| FetchError     (* the promise returned by [fetch] rejects *)
| SyntaxError    (* [response.json()] rejects: the body is not JSON *)
| RangeError.    (* [toISOString] of an invalid date *)

Inductive Result (A : Type) : Type :=
| Ok (a : A)
| Throw (e : JsError).
Arguments Ok {A} a.
Arguments Throw {A} e.

(** Own-property lookup in an object literal or a parsed JSON object. *)
Fixpoint lookup {A : Type} (k : string) (fields : list (string * A)) : option A :=
  match fields with
  | [] => None
  | (k', v) :: rest => if String.eqb k k' then Some v else lookup k rest
  end.

(** [v.k] for the property names the program reads ([data], [cert], [asset],
    [id], [name], [marketTransactions], [price], [date]): none of them is an
    index, [length] or a member of a built-in prototype, so on anything but
    an object with that own property the read yields [undefined]; on [null]
    and [undefined] it throws. *)
Definition getProp (v : JsVal) (k : string) : Result JsVal :=
  match v with
  | JUndefined | JNull => Throw TypeError
  | JObj fields => match lookup k fields with Some x => Ok x | None => Ok JUndefined end
  | _ => Ok JUndefined
  end.

(** A member chain [v.k1.k2...], evaluated left to right. *)
Fixpoint getPath (v : JsVal) (ks : list string) : Result JsVal :=
  match ks with
  | [] => Ok v
  | k :: rest => match getProp v k with
                 | Ok x => getPath x rest
                 | Throw e => Throw e
                 end
  end.

(** A query-string parameter as Express hands it over: absent ([undefined])
    or a string.  The empty string is falsy. *)
Definition Param : Type := option string.

Definition truthy (p : Param) : bool :=
  match p with
  | None => false
  | Some s => negb (String.eqb s "")
  end.

(** ** The upstream services and the world *)

Inductive Request : Type :=
| CertRequest (certNumber : string)
    (* POST API_URL_CERT, operationName "Cert", variables {certNumber} *)
| TransactionsRequest (id : JsVal) (gradingCompany gradeNumber : string).
    (* POST API_URL_TRANSACTIONS, operationName "AssetMarketTransactions",
       variables {id, marketTransactionFilter: {gradingCompany, gradeNumber, showSkipped: true}} *)

Inductive FetchOutcome : Type :=
| FetchRejected
    (* network failure *)
| FetchResponse (status : Z) (body : option JsVal).
    (* an HTTP response; [body = None] when the body does not parse as JSON *)

Record World : Type := mkWorld {
  upstream : list Request -> Request -> FetchOutcome;
    (* what the services answer to a request, given the requests sent before *)
  sent : list Request;
    (* the requests sent so far, oldest first *)
  clock : nat -> Z;
    (* the time value returned by the n-th [new Date()] *)
  clockReads : nat
}.

(** ** The monad of asynchronous, throwing computations *)

Definition M (A : Type) : Type := World -> Result A * World.

Definition ret {A : Type} (a : A) : M A := fun w => (Ok a, w).

Definition throw {A : Type} (e : JsError) : M A := fun w => (Throw e, w).

Definition bind {A B : Type} (m : M A) (k : A -> M B) : M B :=
  fun w => match m w with
           | (Ok a, w') => k a w'
           | (Throw e, w') => (Throw e, w')
           end.

Definition lift {A : Type} (r : Result A) : M A := fun w => (r, w).

(** [try { m } catch (error) { h }] *)
Definition tryCatch {A : Type} (m : M A) (h : JsError -> M A) : M A :=
  fun w => match m w with
           | (Ok a, w') => (Ok a, w')
           | (Throw e, w') => h e w'
           end.

Notation "x <- m ;; k" := (bind m (fun x => k))
  (at level 61, m at next level, right associativity).

Record Response : Type := mkResponse {
  status : Z;
  body : option JsVal
}.

(** [await fetch(url, {method: 'POST', ...})]: the request is logged, and the
    promise resolves to the response whatever its status, or rejects. *)
Definition fetch (r : Request) : M Response :=
  fun w =>
    let w' := mkWorld (upstream w) (sent w ++ [r]) (clock w) (clockReads w) in
    match upstream w (sent w) r with
    | FetchRejected => (Throw FetchError, w')
    | FetchResponse st b => (Ok (mkResponse st b), w')
    end.

(** [await response.json()] *)
Definition json (response : Response) : M JsVal :=
  match body response with
  | Some v => ret v
  | None => throw SyntaxError
  end.

(** [new Date()] *)
Definition newDateNow : M Z :=
  fun w => (Ok (clock w (clockReads w)),
            mkWorld (upstream w) (sent w) (clock w) (S (clockReads w))).

(** ** Resolver: [getInternalId] *)

(** The form of the first three revisions: [return data.data.cert.asset.id]. *)
Definition getInternalId_plain (slabNumber : string) : M JsVal :=
  response <- fetch (CertRequest slabNumber) ;;
  data <- json response ;;
  lift (getPath data ["data"; "cert"; "asset"; "id"]).

(** The form of the fourth revision, which reads the id and the name for
    logging before it returns the id. *)
Definition getInternalId (slabNumber : string) : M JsVal :=
  response <- fetch (CertRequest slabNumber) ;;
  data <- json response ;;
  _ <- lift (getPath data ["data"; "cert"; "asset"; "id"]) ;;
  _ <- lift (getPath data ["data"; "cert"; "asset"; "name"]) ;;
  lift (getPath data ["data"; "cert"; "asset"; "id"]).

(** ** Price aggregator: [getPrices] *)

Record Transaction : Type := mkTransaction {
  t_price : JsVal;
  t_date : JsVal;
  t_gradingCompany : string;
  t_gradeNumber : string
}.

(** [gradingCompany ? [gradingCompany] : ["PSA", "BGS"]] *)
Definition gradingCompanies (gradingCompany : Param) : list string :=
  match gradingCompany with
  | Some c => if truthy gradingCompany then [c] else ["PSA"; "BGS"]
  | None => ["PSA"; "BGS"]
  end.

Definition gradesOr (gradeNumber : Param) (defaults : list string) : list string :=
  match gradeNumber with
  | Some g => if truthy gradeNumber then [g] else defaults
  | None => defaults
  end.

(** The object literal [{PSA: ..., BGS: ...}]. *)
Definition gradeNumbers (gradeNumber : Param) : list (string * list string) :=
  [ ("PSA", gradesOr gradeNumber ["9.0"; "10.0"]);
    ("BGS", gradesOr gradeNumber ["9.0"; "9.5"; "10.0"]) ].

(** [xs.map((m) => ({price: m.price, date: m.date, gradingCompany: company,
    gradeNumber: grade}))] on the elements of an array. *)
Fixpoint mapTransactions (items : list JsVal) (company grade : string)
  : Result (list Transaction) :=
  match items with
  | [] => Ok []
  | m :: rest =>
      match getProp m "price" with
      | Throw e => Throw e
      | Ok p =>
          match getProp m "date" with
          | Throw e => Throw e
          | Ok d =>
              match mapTransactions rest company grade with
              | Throw e => Throw e
              | Ok ts => Ok (mkTransaction p d company grade :: ts)
              end
          end
      end
  end.

(** [data.data.asset.marketTransactions.map(...)]: only an array has [map]. *)
Definition marketTransactionsOf (data : JsVal) (company grade : string)
  : Result (list Transaction) :=
  match getPath data ["data"; "asset"; "marketTransactions"] with
  | Throw e => Throw e
  | Ok (JArr items) => mapTransactions items company grade
  | Ok _ => Throw TypeError
  end.

(** [allTransactions.length > 0 && gradingCompany && gradeNumber] *)
Definition breakEarly (allTransactions : list Transaction)
  (gradingCompany gradeNumber : Param) : bool :=
  negb (Nat.eqb (List.length allTransactions) 0)
  && truthy gradingCompany && truthy gradeNumber.

(** The inner loop [for (const grade of gradeNumbers[company])]; [break]
    leaves this loop only. *)
Fixpoint gradeLoop (internalId : JsVal) (gradingCompany gradeNumber : Param)
  (company : string) (grades : list string) (allTransactions : list Transaction)
  : M (list Transaction) :=
  match grades with
  | [] => ret allTransactions
  | grade :: rest =>
      response <- fetch (TransactionsRequest internalId company grade) ;;
      data <- json response ;;
      transactions <- lift (marketTransactionsOf data company grade) ;;
      let allTransactions := allTransactions ++ transactions in
      if breakEarly allTransactions gradingCompany gradeNumber
      then ret allTransactions
      else gradeLoop internalId gradingCompany gradeNumber company rest allTransactions
  end.

(** The outer loop [for (const company of gradingCompanies)].  A company
    that is not a key of [gradeNumbers] makes the inner [for...of] iterate
    [undefined], which throws. *)
Fixpoint companyLoop (internalId : JsVal) (gradingCompany gradeNumber : Param)
  (companies : list string) (allTransactions : list Transaction)
  : M (list Transaction) :=
  match companies with
  | [] => ret allTransactions
  | company :: rest =>
      match lookup company (gradeNumbers gradeNumber) with
      | None => throw TypeError
      | Some grades =>
          allTransactions <- gradeLoop internalId gradingCompany gradeNumber
                                       company grades allTransactions ;;
          companyLoop internalId gradingCompany gradeNumber rest allTransactions
      end
  end.

Definition getPrices (internalId : JsVal) (gradingCompany gradeNumber : Param)
  : M (list Transaction) :=
  companyLoop internalId gradingCompany gradeNumber
              (gradingCompanies gradingCompany) [].

(** ** Dates

    Time values are milliseconds since the epoch; [None] is [NaN], the time
    value of an invalid date.  The functions are the abstract operations of
    ECMA-262 (section "Date Objects"); only the offset of the local time zone
    is left to the host. *)

Module JsDate.

Definition msPerDay : Z := 86400000.

Definition Day (t : Z) : Z := t / msPerDay.

Definition TimeWithinDay (t : Z) : Z := t mod msPerDay.

Definition DaysInYear (y : Z) : Z :=
  if (y mod 4 =? 0) && (negb (y mod 100 =? 0) || (y mod 400 =? 0))
  then 366 else 365.

Definition DayFromYear (y : Z) : Z :=
  365 * (y - 1970) + (y - 1969) / 4 - (y - 1901) / 100 + (y - 1601) / 400.

(** The largest [y] with [DayFromYear y <= Day t]: the estimate from the mean
    length of a Gregorian year is off by at most one. *)
Definition YearFromTime (t : Z) : Z :=
  let d := Day t in
  let y := 1970 + (d * 400) / 146097 in
  if DayFromYear (y + 1) <=? d then y + 1
  else if DayFromYear y <=? d then y
  else y - 1.

Definition InLeapYear (t : Z) : Z :=
  if DaysInYear (YearFromTime t) =? 366 then 1 else 0.

Definition DayWithinYear (t : Z) : Z := Day t - DayFromYear (YearFromTime t).

(** The day within the year on which month [m] (0 = January) starts. *)
Definition monthStart (m leap : Z) : Z :=
  if m =? 0 then 0
  else if m =? 1 then 31
  else if m =? 2 then 59 + leap
  else if m =? 3 then 90 + leap
  else if m =? 4 then 120 + leap
  else if m =? 5 then 151 + leap
  else if m =? 6 then 181 + leap
  else if m =? 7 then 212 + leap
  else if m =? 8 then 243 + leap
  else if m =? 9 then 273 + leap
  else if m =? 10 then 304 + leap
  else 334 + leap.

Definition MonthFromTime (t : Z) : Z :=
  let d := DayWithinYear t in
  let leap := InLeapYear t in
  if d <? 31 then 0
  else if d <? 59 + leap then 1
  else if d <? 90 + leap then 2
  else if d <? 120 + leap then 3
  else if d <? 151 + leap then 4
  else if d <? 181 + leap then 5
  else if d <? 212 + leap then 6
  else if d <? 243 + leap then 7
  else if d <? 273 + leap then 8
  else if d <? 304 + leap then 9
  else if d <? 334 + leap then 10
  else 11.

Definition DateFromTime (t : Z) : Z :=
  DayWithinYear t - monthStart (MonthFromTime t) (InLeapYear t) + 1.

Definition MakeDay (year month dt : Z) : Z :=
  let ym := year + month / 12 in
  let mn := month mod 12 in
  let leap := if DaysInYear ym =? 366 then 1 else 0 in
  DayFromYear ym + monthStart mn leap + dt - 1.

Definition MakeDate (day time : Z) : Z := day * msPerDay + time.

Definition TimeClip (t : Z) : option Z :=
  if Z.abs t <=? 8640000000000000 then Some t else None.

Section LocalTime.

(** [LocalTZA t isUTC]: the offset of local time from UTC, in milliseconds,
    at the UTC time [t] ([isUTC = true]) or at the local time [t]. *)
Variable LocalTZA : Z -> bool -> Z.

Definition LocalTime (t : Z) : Z := t + LocalTZA t true.

Definition UTC (t : Z) : Z := t - LocalTZA t false.

(** [Date.prototype.getMonth], [setMonth], [getDate], [setDate] on a date
    whose time value is [tv]; the setters give the new time value. *)
Definition getMonth (tv : Z) : Z := MonthFromTime (LocalTime tv).

Definition setMonth (tv : Z) (month : Z) : option Z :=
  let t := LocalTime tv in
  let newDate := MakeDate (MakeDay (YearFromTime t) month (DateFromTime t))
                          (TimeWithinDay t) in
  TimeClip (UTC newDate).

Definition getDate (tv : Z) : Z := DateFromTime (LocalTime tv).

Definition setDate (tv : Z) (dt : Z) : option Z :=
  let t := LocalTime tv in
  let newDate := MakeDate (MakeDay (YearFromTime t) (MonthFromTime t) dt)
                          (TimeWithinDay t) in
  TimeClip (UTC newDate).

End LocalTime.

(** [a <= b] and [a >= b] on two dates, compared through their time values:
    false as soon as one of them is [NaN]. *)
Definition dateLe (a b : option Z) : bool :=
  match a, b with
  | Some x, Some y => x <=? y
  | _, _ => false
  end.

Definition dateGe (a b : option Z) : bool :=
  match a, b with
  | Some x, Some y => y <=? x
  | _, _ => false
  end.

End JsDate.

(** ** The JavaScript host

    The two built-ins the estimator calls are functions of the value they
    are given, so a call always returns.  JavaScript first converts the
    argument to a primitive, and that conversion returns on every string,
    number, boolean and [null], which is what a price or a date of the
    upstream is; it throws a [TypeError] on an object that carries a property
    of its own named [toString] (no value read from JSON is callable), and on
    an array that holds one.  Such prices and dates are left out: on them the
    estimator would throw, and the handler answer 500. *)

Record Host : Type := mkHost {
  LocalTZA : Z -> bool -> Z;
    (* the local time zone *)
  parseFloat : JsVal -> float;
    (* the global [parseFloat] *)
  newDate : JsVal -> option Z
    (* the time value of [new Date(v)]; [None] for an invalid date *)
}.

(** ** Confidence estimator *)

Inductive ConfidenceLevel : Type := High | Medium | Low.

Local Open Scope float_scope.

(** The number literals [0.1] and [0.2], that is the doubles nearest to them. *)
Definition tenth : float := 0x1.999999999999ap-4.
Definition fifth : float := 0x1.999999999999ap-3.

(** [xs.length] as a JavaScript number. *)
Definition lengthNum {A : Type} (xs : list A) : float :=
  SF2Prim (binary_normalize prec emax (Z.of_nat (List.length xs)) 0 false).

(** [xs.reduce((acc, x) => acc + f(x), 0)] *)
Definition sumOf {A : Type} (f : A -> float) (xs : list A) : float :=
  fold_left (fun acc x => acc + f x) xs 0.

(** The classification shared by both revisions:
    [if (averageDeviation < averagePrice * 0.1) ... else if (averageDeviation < averagePrice * 0.2) ...] *)
Definition levelOf (averagePrice averageDeviation : float) : ConfidenceLevel :=
  if averageDeviation <? averagePrice * tenth then High
  else if averageDeviation <? averagePrice * fifth then Medium
  else Low.

(** *** The single-window revision *)

Module Legacy.

(** [lastMonth.toISOString()], evaluated for the log line: it throws on an
    invalid date. *)
Definition toISOString (tv : option Z) : M unit :=
  match tv with
  | Some _ => ret tt
  | None => throw RangeError
  end.

(** From [if (recentPrices.length === 0)] to the end of the function. *)
Definition confidenceOf (recentPrices : list float) : ConfidenceLevel :=
  if Nat.eqb (List.length recentPrices) 0 then Low
  else
    let averagePrice := sumOf (fun price => price) recentPrices
                        / lengthNum recentPrices in
    let averageDeviation :=
      sumOf (fun price => abs (price - averagePrice)) recentPrices
      / lengthNum recentPrices in
    levelOf averagePrice averageDeviation.

Section WithHost.

Variable host : Host.

(** [prices.filter((transaction) => new Date(transaction.date) <= lastMonth)] *)
Definition recentTransactions (lastMonth : option Z) (prices : list Transaction)
  : list Transaction :=
  filter (fun transaction =>
            JsDate.dateLe (newDate host (t_date transaction)) lastMonth)
         prices.

Definition calculateConfidence (prices : list Transaction) : M ConfidenceLevel :=
  lastMonth <- newDateNow ;;
  let lastMonth := JsDate.setMonth (LocalTZA host) lastMonth
                     (JsDate.getMonth (LocalTZA host) lastMonth - 1) in
  _ <- toISOString lastMonth ;;
  let recentPrices :=
    map (fun transaction => parseFloat host (t_price transaction))
        (recentTransactions lastMonth prices) in
  ret (confidenceOf recentPrices).

End WithHost.

End Legacy.

(** *** The multi-window revision *)

Record PricePoint : Type := mkPricePoint {
  p_price : float;
  p_date : JsVal
}.

Record Stats : Type := mkStats {
  averagePrice : float;
  averageDeviation : float;
  confidenceLevel : ConfidenceLevel
}.

Record WindowResult : Type := mkWindowResult {
  recentPrices : list PricePoint;
  stats : Stats
}.

Definition calculateAverageAndDeviation (recentPrices : list PricePoint) : Stats :=
  if Nat.eqb (List.length recentPrices) 0
  then mkStats 0 0 Low
  else
    let averagePrice := sumOf p_price recentPrices / lengthNum recentPrices in
    let averageDeviation :=
      sumOf (fun transaction => abs (p_price transaction - averagePrice)) recentPrices
      / lengthNum recentPrices in
    mkStats averagePrice averageDeviation (levelOf averagePrice averageDeviation).

(** The object literal [timespans], in the order [Object.entries] lists it. *)
Definition timespans : list (string * Z) :=
  [ ("year", 365%Z); ("quarter", 90%Z); ("month", 30%Z); ("week", 7%Z) ].

(** [obj[k] = v] on an object held as its list of entries: an existing key
    keeps its place, a new one goes last. *)
Fixpoint assign {A : Type} (k : string) (v : A) (obj : list (string * A))
  : list (string * A) :=
  match obj with
  | [] => [(k, v)]
  | (k', v') :: rest =>
      if String.eqb k k' then (k, v) :: rest else (k', v') :: assign k v rest
  end.

Record Query : Type := mkQuery {
  q_slabNumber : Param;
  q_gradingCompany : Param;
  q_gradeNumber : Param
}.

Inductive HttpResponse : Type :=
| ResSend (code : Z) (text : string)
    (* [res.status(code).send(text)] *)
| ResJson (prices : list Transaction) (confidence : list (string * WindowResult)).
    (* [res.json({prices, confidence})], status 200 *)

Section WithHost.

Variable host : Host.

(** [prices.filter((transaction) => new Date(transaction.date) >= startDate)] *)
Definition windowTransactions (startDate : option Z) (prices : list Transaction)
  : list Transaction :=
  filter (fun transaction =>
            JsDate.dateGe (newDate host (t_date transaction)) startDate)
         prices.

Definition filterPrices (prices : list Transaction) (days : Z) : M (list PricePoint) :=
  startDate <- newDateNow ;;
  let startDate := JsDate.setDate (LocalTZA host) startDate
                     (JsDate.getDate (LocalTZA host) startDate - days) in
  ret (map (fun transaction =>
              mkPricePoint (parseFloat host (t_price transaction)) (t_date transaction))
           (windowTransactions startDate prices)).

(** [for (const [period, days] of Object.entries(timespans)) { ... }] *)
Fixpoint windowsLoop (prices : list Transaction) (entries : list (string * Z))
  (results : list (string * WindowResult)) : M (list (string * WindowResult)) :=
  match entries with
  | [] => ret results
  | (period, days) :: rest =>
      recentPrices <- filterPrices prices days ;;
      let s := calculateAverageAndDeviation recentPrices in
      windowsLoop prices rest (assign period (mkWindowResult recentPrices s) results)
  end.

Definition calculateConfidence (prices : list Transaction)
  : M (list (string * WindowResult)) :=
  windowsLoop prices timespans [].

(** ** The request handler: [app.get('/get-prices', ...)] *)

Definition handler (query : Query) : M HttpResponse :=
  match q_slabNumber query with
  | None => ret (ResSend 400 "Please provide a slab number")
  | Some slabNumber =>
      if negb (truthy (Some slabNumber))
      then ret (ResSend 400 "Please provide a slab number")
      else
        tryCatch
          (internalId <- getInternalId slabNumber ;;
           prices <- getPrices internalId (q_gradingCompany query)
                               (q_gradeNumber query) ;;
           prices <- (if Nat.eqb (List.length prices) 0
                      then getPrices internalId None None
                      else ret prices) ;;
           confidence <- calculateConfidence prices ;;
           ret (ResJson prices confidence))
          (fun error => ret (ResSend 500 "Error fetching data"))
  end.

End WithHost.

(** ** The estimator in the specification's words

    The mean and the mean absolute deviation of a list of prices, and the
    rating [High] below a tenth of the mean, [Medium] below a fifth, [Low]
    otherwise.  All arithmetic is that of JavaScript numbers. *)

Definition arithmeticMean (xs : list float) : float :=
  fold_left PrimFloat.add xs 0 / lengthNum xs.

Definition meanAbsoluteDeviation (xs : list float) : float :=
  let mean := arithmeticMean xs in
  fold_left PrimFloat.add (map (fun x => abs (x - mean)) xs) 0 / lengthNum xs.

Definition rating (mean deviation : float) : ConfidenceLevel :=
  if deviation <? tenth * mean then High
  else if deviation <? fifth * mean then Medium
  else Low.



Local Close Scope float_scope.

(** ** What the services answer, read off an outcome *)

(** The transactions a sub-query's answer decodes to, or the error raised
    while decoding it. *)
Definition decodeTransactions (out : FetchOutcome) (company grade : string)
  : Result (list Transaction) :=
  match out with
  | FetchRejected => Throw FetchError
  | FetchResponse _ None => Throw SyntaxError
  | FetchResponse _ (Some data) => marketTransactionsOf data company grade
  end.

(** The world answers every sub-query for [id], whatever was sent before,
    with a body that decodes. *)
Definition answersAll (w : World) (id : JsVal) : Prop :=
  forall history company grade,
    exists ts,
      decodeTransactions (upstream w history (TransactionsRequest id company grade))
                         company grade = Ok ts.

(** The same, with a property [P] that every decoded answer has. *)
Definition answersWith (P : list Transaction -> Prop) (w : World) (id : JsVal)
  : Prop :=
  forall history company grade,
    exists ts,
      decodeTransactions (upstream w history (TransactionsRequest id company grade))
                         company grade = Ok ts /\ P ts.

(** The same, and every answer is an empty list. *)
Definition answersEmpty (w : World) (id : JsVal) : Prop :=
  forall history company grade,
    decodeTransactions (upstream w history (TransactionsRequest id company grade))
                       company grade = Ok [].

(** The sub-queries of the full default matrix, in the order they are sent. *)
Definition fullMatrix (id : JsVal) : list Request :=
  [ TransactionsRequest id "PSA" "9.0";
    TransactionsRequest id "PSA" "10.0";
    TransactionsRequest id "BGS" "9.0";
    TransactionsRequest id "BGS" "9.5";
    TransactionsRequest id "BGS" "10.0" ].

(** The asset object a certificate answer carries, when the chain
    [data.data.cert.asset] can be followed to a value that has properties. *)
Definition assetOf (data : JsVal) : option JsVal :=
  match getPath data ["data"; "cert"; "asset"] with
  | Ok JUndefined | Ok JNull | Throw _ => None
  | Ok asset => Some asset
  end.

(** [true] when the resolver cannot produce an id from the outcome: the call
    is rejected, the body is not JSON, or the chain to [asset] breaks. *)
Definition resolverFails (out : FetchOutcome) : bool :=
  match out with
  | FetchRejected => true
  | FetchResponse _ None => true
  | FetchResponse _ (Some data) =>
      match assetOf data with
      | Some _ => false
      | None => true
      end
  end.

(** What the resolver makes of an outcome. *)
Definition decodeId (out : FetchOutcome) : Result JsVal :=
  match out with
  | FetchRejected => Throw FetchError
  | FetchResponse _ None => Throw SyntaxError
  | FetchResponse _ (Some data) => getPath data ["data"; "cert"; "asset"; "id"]
  end.

(** An HTTP status in the 2xx range ([response.ok]). *)
Definition successStatus (st : Z) : bool := (200 <=? st)%Z && (st <=? 299)%Z.

(** The world after the requests [rs] have been sent. *)
Definition logged (w : World) (rs : list Request) : World :=
  mkWorld (upstream w) (sent w ++ rs) (clock w) (clockReads w).

(** The world after [n] more readings of the clock. *)
Definition ticked (w : World) (n : nat) : World :=
  mkWorld (upstream w) (sent w) (clock w) (n + clockReads w).

(** The four windows as one value: what [calculateConfidence] returns when
    the clock is read at [now 0], [now 1], [now 2] and [now 3]. *)
Definition windowAt (host : Host) (prices : list Transaction) (now days : Z)
  : WindowResult :=
  let startDate := JsDate.setDate (LocalTZA host) now
                     (JsDate.getDate (LocalTZA host) now - days) in
  let recentPrices :=
    map (fun transaction =>
           mkPricePoint (parseFloat host (t_price transaction)) (t_date transaction))
        (windowTransactions host startDate prices) in
  mkWindowResult recentPrices (calculateAverageAndDeviation recentPrices).

Definition confidenceAt (host : Host) (prices : list Transaction) (now : nat -> Z)
  : list (string * WindowResult) :=
  [ ("year", windowAt host prices (now 0%nat) 365);
    ("quarter", windowAt host prices (now 1%nat) 90);
    ("month", windowAt host prices (now 2%nat) 30);
    ("week", windowAt host prices (now 3%nat) 7) ].

(** ** A host and some worlds to run the model on

    The host lives in UTC.  Its [parseFloat] is ECMAScript's: a value is
    converted to a string and the longest leading decimal literal is rounded
    to the nearest double.  Its [Date] reads primitive values, and of the
    strings only the date form [YYYY-MM-DD]; every other string is an invalid
    date here. *)

Module SampleHost.

Local Open Scope Z_scope.

(** The integer part of a finite number ([ToIntegerOrInfinity]). *)
Definition truncate (x : float) : option Z :=
  match Prim2SF x with
  | S754_zero _ => Some 0
  | S754_finite s m e =>
      let a := if 0 <=? e then Zpos m * 2 ^ e else Zpos m / 2 ^ (- e) in
      Some (if s then - a else a)
  | _ => None
  end.

Definition digitOf (c : ascii) : option Z :=
  let n := Z.of_nat (nat_of_ascii c) in
  if (48 <=? n) && (n <=? 57) then Some (n - 48) else None.

(** The leading decimal digits of [s]: their value appended to [acc], how
    many there are, and the rest of the string. *)
Fixpoint readDigits (s : string) (acc : Z) (count : Z) : Z * Z * string :=
  match s with
  | String c rest =>
      match digitOf c with
      | Some d => readDigits rest (10 * acc + d) (count + 1)
      | None => (acc, count, s)
      end
  | EmptyString => (acc, count, s)
  end.

Definition isWhiteSpace (c : ascii) : bool :=
  let n := nat_of_ascii c in
  (Nat.eqb n 32 || Nat.eqb n 9 || Nat.eqb n 10 || Nat.eqb n 11
   || Nat.eqb n 12 || Nat.eqb n 13)%bool.

Fixpoint trimStart (s : string) : string :=
  match s with
  | String c rest => if isWhiteSpace c then trimStart rest else s
  | EmptyString => s
  end.

Definition readSign (s : string) : bool * string :=
  match s with
  | String "-" rest => (true, rest)
  | String "+" rest => (false, rest)
  | _ => (false, s)
  end.

(** [ExponentPart]: [e] or [E], an optional sign and at least one digit;
    anything else is not part of the literal. *)
Definition readExponent (s : string) : Z :=
  match s with
  | String c rest =>
      if (Ascii.eqb c "e" || Ascii.eqb c "E")%bool then
        let '(neg, rest) := readSign rest in
        let '(e, count, _) := readDigits rest 0 0 in
        if count =? 0 then 0 else if neg then - e else e
      else 0
  | EmptyString => 0
  end.

(** The double nearest to [m * 10^e], ties to even, for [m > 0]. *)
Definition roundDecimal (neg : bool) (m e : Z) : float :=
  if 0 <=? e
  then SF2Prim (binary_normalize prec emax
                  ((if neg then - m else m) * 10 ^ e) 0 false)
  else SF2Prim (SFdiv prec emax
                  (S754_finite neg (Z.to_pos m) 0)
                  (S754_finite false (Z.to_pos (10 ^ (- e))) 0)).

(** [parseFloat] on a string: the longest prefix, after leading white space,
    that is a [StrDecimalLiteral]. *)
Definition parseFloatString (s : string) : float :=
  let '(neg, s) := readSign (trimStart s) in
  if String.prefix "Infinity" s
  then (if neg then neg_infinity else infinity)
  else
    let '(int, intCount, s) := readDigits s 0 0 in
    let '(m, fracCount, s) :=
      match s with
      | String "." rest =>
          let '(m, fracCount, rest') := readDigits rest int 0 in
          if (intCount =? 0) && (fracCount =? 0) then (int, 0, s)
          else (m, fracCount, rest')
      | _ => (int, 0, s)
      end in
    if (intCount =? 0) && (fracCount =? 0) then nan
    else if m =? 0 then (if neg then (-0)%float else 0%float)
    else roundDecimal neg m (readExponent s - fracCount).


(** [parseFloat] on a value.  A number prints and reads back as itself, but
    for [-0], which prints as ["0"]; an array prints as its elements joined
    by commas, so only its first element counts; the other values print as
    words. *)
Fixpoint parseFloatValue (v : JsVal) : float :=
  match v with
  | JNum x => if PrimFloat.eqb x 0 then 0%float else x
  | JStr s => parseFloatString s
  | JArr (first :: _) => parseFloatValue first
  | _ => nan
  end.

Definition daysInMonth (year month : Z) : Z :=
  if month =? 2 then JsDate.DaysInYear year - 337
  else if (month =? 4) || (month =? 6) || (month =? 9) || (month =? 11) then 30
  else 31.

(** [Date.parse] on [YYYY-MM-DD], read as midnight UTC. *)
Definition parseDateString (s : string) : option Z :=
  let '(year, n1, s) := readDigits s 0 0 in
  match s with
  | String "-" s =>
      let '(month, n2, s) := readDigits s 0 0 in
      match s with
      | String "-" s =>
          let '(day, n3, s) := readDigits s 0 0 in
          match s with
          | EmptyString =>
              if (n1 =? 4) && (n2 =? 2) && (n3 =? 2)
                 && (1 <=? month) && (month <=? 12)
                 && (1 <=? day) && (day <=? daysInMonth year month)
              then JsDate.TimeClip
                     (JsDate.MakeDate (JsDate.MakeDay year (month - 1) day) 0)
              else None
          | _ => None
          end
      | _ => None
      end
  | _ => None
  end.

Definition newDateValue (v : JsVal) : option Z :=
  match v with
  | JNull => Some 0
  | JBool b => Some (if b then 1 else 0)
  | JNum x => match truncate x with
              | Some t => JsDate.TimeClip t
              | None => None
              end
  | JStr s => parseDateString s
  | _ => None
  end.

Definition host : Host := mkHost (fun _ _ => 0) parseFloatValue newDateValue.

(** 2024-05-31T00:00:00Z *)
Definition today : Z := 1717113600000.

Definition certBody (id name : string) : JsVal :=
  JObj [("data",
         JObj [("cert",
                JObj [("certNumber", JStr "12345678");
                      ("asset", JObj [("id", JStr id); ("name", JStr name);
                                      ("__typename", JStr "Asset")]);
                      ("__typename", JStr "Cert")])])].

Definition transactionsBody (items : list JsVal) : JsVal :=
  JObj [("data",
         JObj [("asset",
                JObj [("marketTransactions", JArr items);
                      ("__typename", JStr "Asset")])])].

Definition sale (price date : string) : JsVal :=
  JObj [("price", JStr price); ("date", JStr date);
        ("__typename", JStr "MarketTransaction")].

Definition isPair (company grade c g : string) : bool :=
  String.eqb company c && String.eqb grade g.

Definition world (up : Request -> FetchOutcome) : World :=
  mkWorld (fun _ r => up r) [] (fun _ => today) 0.

(** The end-to-end scenario of the specification: the certificate resolves
    to asset [A1], which has two sales under PSA 10.0, twenty and ten days
    old, and none under the other pairs. *)
Definition scenario : World :=
  world (fun r =>
    match r with
    | CertRequest _ => FetchResponse 200 (Some (certBody "A1" "Sample card"))
    | TransactionsRequest _ company grade =>
        FetchResponse 200 (Some (transactionsBody
          (if isPair company grade "PSA" "10.0"
           then [sale "100.00" "2024-05-11"; sale "105.00" "2024-05-21"]
           else [])))
    end).

(** No pair has any sale. *)
Definition noSales : World :=
  world (fun r =>
    match r with
    | CertRequest _ => FetchResponse 200 (Some (certBody "A1" "Sample card"))
    | TransactionsRequest _ _ _ => FetchResponse 200 (Some (transactionsBody []))
    end).

(** Sales under BGS 9.5 only. *)
Definition onlyBGS : World :=
  world (fun r =>
    match r with
    | CertRequest _ => FetchResponse 200 (Some (certBody "A1" "Sample card"))
    | TransactionsRequest _ company grade =>
        FetchResponse 200 (Some (transactionsBody
          (if isPair company grade "BGS" "9.5"
           then [sale "80.00" "2024-05-20"; sale "120.00" "2024-05-25"]
           else [])))
    end).

(** The certificate service answers with status 500 and a complete body. *)
Definition status500 : World :=
  world (fun r =>
    match r with
    | CertRequest _ => FetchResponse 500 (Some (certBody "A1" "Sample card"))
    | TransactionsRequest _ _ _ => FetchResponse 200 (Some (transactionsBody []))
    end).

(** The certificate exists but its asset carries no [id]. *)
Definition assetWithoutId : World :=
  world (fun r =>
    match r with
    | CertRequest _ =>
        FetchResponse 200
          (Some (JObj [("data", JObj [("cert", JObj [("asset", JObj [])])])]))
    | TransactionsRequest _ _ _ => FetchResponse 200 (Some (transactionsBody []))
    end).

End SampleHost.

(** ** The plan of one aggregation *)

(** The (company, grade) pairs [getPrices] means to query, in order: for each
    company of [gradingCompanies] the grades [gradeNumbers] lists for it, and
    none for a company that is not one of its keys. *)
Definition plannedPairs (gradingCompany gradeNumber : Param) : list (string * string) :=
  flat_map (fun company =>
              match lookup company (gradeNumbers gradeNumber) with
              | Some grades => map (fun grade => (company, grade)) grades
              | None => []
              end)
           (gradingCompanies gradingCompany).

Definition pairRequest (id : JsVal) (cg : string * string) : Request :=
  TransactionsRequest id (fst cg) (snd cg).

Definition plannedRequests (id : JsVal) (gradingCompany gradeNumber : Param)
  : list Request :=
  map (pairRequest id) (plannedPairs gradingCompany gradeNumber).

(** Every company to loop over is a key of [gradeNumbers]. *)
Definition knownCompanies (gradingCompany : Param) : bool :=
  forallb (fun company =>
             match lookup company (gradeNumbers None) with
             | Some _ => true
             | None => false
             end)
          (gradingCompanies gradingCompany).

(** The answers to the sub-queries of [pairs], asked one after the other
    starting from [history], put end to end; or the first error met. *)
Fixpoint gather (up : list Request -> Request -> FetchOutcome) (id : JsVal)
  (history : list Request) (pairs : list (string * string))
  : Result (list Transaction) :=
  match pairs with
  | [] => Ok []
  | cg :: rest =>
      match decodeTransactions (up history (pairRequest id cg))
                               (fst cg) (snd cg) with
      | Throw e => Throw e
      | Ok answer =>
          match gather up id (history ++ [pairRequest id cg]) rest with
          | Throw e => Throw e
          | Ok others => Ok (answer ++ others)
          end
      end
  end.

(** How many sub-queries are sent before [gather] stops: all of them, or
    those up to the first whose answer fails. *)
Fixpoint gatherCount (up : list Request -> Request -> FetchOutcome) (id : JsVal)
  (history : list Request) (pairs : list (string * string)) : nat :=
  match pairs with
  | [] => 0%nat
  | cg :: rest =>
      match decodeTransactions (up history (pairRequest id cg))
                               (fst cg) (snd cg) with
      | Throw _ => 1%nat
      | Ok _ => S (gatherCount up id (history ++ [pairRequest id cg]) rest)
      end
  end.

(** ** The first revisions: one pair, no estimator

    [server/main.js] and its variant with the configuration read from the
    environment.  The resolver is [getInternalId_plain]. *)

Module FirstRevision.

Record Sale : Type := mkSale {
  s_price : JsVal;
  s_date : JsVal
}.

(** [xs.map((m) => ({price: m.price, date: m.date}))] *)
Fixpoint mapSales (items : list JsVal) : Result (list Sale) :=
  match items with
  | [] => Ok []
  | m :: rest =>
      match getProp m "price" with
      | Throw e => Throw e
      | Ok p =>
          match getProp m "date" with
          | Throw e => Throw e
          | Ok d =>
              match mapSales rest with
              | Throw e => Throw e
              | Ok ss => Ok (mkSale p d :: ss)
              end
          end
      end
  end.

Definition salesOf (data : JsVal) : Result (list Sale) :=
  match getPath data ["data"; "asset"; "marketTransactions"] with
  | Throw e => Throw e
  | Ok (JArr items) => mapSales items
  | Ok _ => Throw TypeError
  end.

Definition getPrices (internalId : JsVal) : M (list Sale) :=
  response <- fetch (TransactionsRequest internalId "PSA" "10.0") ;;
  data <- json response ;;
  lift (salesOf data).

Inductive HttpResponse : Type :=
| ResSend (code : Z) (text : string)
| ResJson (prices : list Sale).

Definition handler (psaNumber : Param) : M HttpResponse :=
  match psaNumber with
  | None => ret (ResSend 400 "Please provide a PSA number")
  | Some number =>
      if negb (truthy (Some number))
      then ret (ResSend 400 "Please provide a PSA number")
      else
        tryCatch
          (internalId <- getInternalId_plain number ;;
           prices <- getPrices internalId ;;
           ret (ResJson prices))
          (fun error => ret (ResSend 500 "Error fetching data"))
  end.

End FirstRevision.

(** ** The handler of the single-window revision

    The same text as [handler], with the confidence of [Legacy] in the
    answer. *)

Module LegacyServer.

Inductive HttpResponse : Type :=
| ResSend (code : Z) (text : string)
| ResJson (prices : list Transaction) (confidence : ConfidenceLevel).

Definition handler (host : Host) (query : Query) : M HttpResponse :=
  match q_slabNumber query with
  | None => ret (ResSend 400 "Please provide a slab number")
  | Some slabNumber =>
      if negb (truthy (Some slabNumber))
      then ret (ResSend 400 "Please provide a slab number")
      else
        tryCatch
          (internalId <- getInternalId_plain slabNumber ;;
           prices <- getPrices internalId (q_gradingCompany query)
                               (q_gradeNumber query) ;;
           prices <- (if Nat.eqb (List.length prices) 0
                      then getPrices internalId None None
                      else ret prices) ;;
           confidence <- Legacy.calculateConfidence host prices ;;
           ret (ResJson prices confidence))
          (fun error => ret (ResSend 500 "Error fetching data"))
  end.

End LegacyServer.

(** ** Hosts and clocks the date properties are stated for *)

(** The local time zone is at a fixed offset from UTC (no daylight saving). *)
Definition fixedOffset (host : Host) (offset : Z) : Prop :=
  forall t isUTC, LocalTZA host t isUTC = offset.

(** A time value from which the year before is still a valid date. *)
Definition inDateRange (t : Z) : Prop :=
  (- 8640000000000000 + 366 * JsDate.msPerDay <= t <= 8640000000000000)%Z.

(** What a run of [pairs] from the world [w] comes to, with [all] gathered
    before. *)
Definition passOver (id : JsVal) (pairs : list (string * string))
  (all : list Transaction) (w : World) : Result (list Transaction) * World :=
  (match gather (upstream w) id (sent w) pairs with
   | Ok ts => Ok (all ++ ts)
   | Throw e => Throw e
   end,
   logged w (firstn (gatherCount (upstream w) id (sent w) pairs)
                    (map (pairRequest id) pairs))).

(** A transaction whose price and date are those of an element of an answer
    the upstream gave to the sub-query of the transaction's own tag. *)
Definition fetchedFrom (up : list Request -> Request -> FetchOutcome) (id : JsVal)
  (t : Transaction) : Prop :=
  exists history st data items item,
    up history (TransactionsRequest id (t_gradingCompany t) (t_gradeNumber t))
      = FetchResponse st (Some data)
    /\ getPath data ["data"; "asset"; "marketTransactions"] = Ok (JArr items)
    /\ In item items
    /\ getProp item "price" = Ok (t_price t)
    /\ getProp item "date" = Ok (t_date t).

(** A transaction without its tag. *)
Definition untagged (t : Transaction) : FirstRevision.Sale :=
  FirstRevision.mkSale (t_price t) (t_date t).

(** ** More worlds to run the model on *)

Module SampleWorlds.

(** The scenario of the specification, with the sub-query for BGS 9.5
    rejected by the network. *)
Definition brokenBGS : World :=
  SampleHost.world (fun r =>
    match r with
    | CertRequest _ =>
        FetchResponse 200 (Some (SampleHost.certBody "A1" "Sample card"))
    | TransactionsRequest _ company grade =>
        if SampleHost.isPair company grade "BGS" "9.5" then FetchRejected
        else FetchResponse 200 (Some (SampleHost.transactionsBody
               (if SampleHost.isPair company grade "PSA" "10.0"
                then [SampleHost.sale "100.00" "2024-05-11";
                      SampleHost.sale "105.00" "2024-05-21"]
                else [])))
    end).

(** The two sales of the scenario, as [getPrices] returns them. *)
Definition sales : list Transaction :=
  [ mkTransaction (JStr "100.00") (JStr "2024-05-11") "PSA" "10.0";
    mkTransaction (JStr "105.00") (JStr "2024-05-21") "PSA" "10.0" ].

(** A world whose clock reads 2024-03-15T12:00:00Z. *)
Definition midMarch : World :=
  mkWorld (fun _ _ => FetchRejected) [] (fun _ => 1710504000000) 0.

(** A sale of 2024-02-15, that is of 2024-02-15T00:00:00Z: twenty-nine and a
    half days before the clock of [midMarch]. *)
Definition februarySale : Transaction :=
  mkTransaction (JStr "100.00") (JStr "2024-02-15") "PSA" "10.0".

End SampleWorlds.

(** * Properties *)

(** ** Running the monad *)

Lemma logged_nil w : logged w [] = w.
Proof. destruct w; unfold logged; simpl. now rewrite app_nil_r. Qed.

Lemma logged_logged w a b : logged (logged w a) b = logged w (a ++ b).
Proof. unfold logged; simpl. now rewrite app_assoc. Qed.

Lemma fetch_run r w :
  fetch r w =
  (match upstream w (sent w) r with
   | FetchRejected => Throw FetchError
   | FetchResponse st b => Ok (mkResponse st b)
   end, logged w [r]).
Proof. unfold fetch, logged. now destruct (upstream w (sent w) r). Qed.

(** ** The aggregator's loops *)

(** One turn of the inner loop. *)
Lemma gradeLoop_cons id gc gn company grade rest all w :
  gradeLoop id gc gn company (grade :: rest) all w =
  match decodeTransactions (upstream w (sent w) (TransactionsRequest id company grade))
                           company grade with
  | Ok ts =>
      if breakEarly (all ++ ts) gc gn
      then (Ok (all ++ ts), logged w [TransactionsRequest id company grade])
      else gradeLoop id gc gn company rest (all ++ ts)
                     (logged w [TransactionsRequest id company grade])
  | Throw e => (Throw e, logged w [TransactionsRequest id company grade])
  end.
Proof.
  cbn [gradeLoop]. unfold bind at 1. rewrite fetch_run.
  destruct (upstream w (sent w) _) as [|st [data|]]; cbn; try reflexivity.
  unfold bind, lift.
  destruct (marketTransactionsOf data company grade); cbn; try reflexivity.
  destruct (breakEarly _ _ _); reflexivity.
Qed.

Lemma breakEarly_off all gc gn :
  truthy gc && truthy gn = false -> breakEarly all gc gn = false.
Proof.
  unfold breakEarly. intros H. rewrite <- andb_assoc, H. apply andb_false_r.
Qed.

Section Collect.

(** A property of transaction lists that every answer has and that
    concatenation preserves; a caller that did not give both filters. *)
Variable P : list Transaction -> Prop.
Hypothesis P_nil : P [].
Hypothesis P_app : forall a b, P a -> P b -> P (a ++ b).

Variables (id : JsVal) (gc gn : Param).
Hypothesis no_break : truthy gc && truthy gn = false.

Lemma gradeLoop_collect company grades :
  forall w all, answersWith P w id ->
  exists ts,
    gradeLoop id gc gn company grades all w =
      (Ok (all ++ ts), logged w (map (TransactionsRequest id company) grades))
    /\ P ts.
Proof.
  induction grades as [|grade rest IH]; intros w all Hw.
  - exists []. cbn. rewrite app_nil_r, logged_nil. now split.
  - rewrite gradeLoop_cons.
    destruct (Hw (sent w) company grade) as [ts [-> Pts]].
    rewrite breakEarly_off by exact no_break.
    destruct (IH (logged w [TransactionsRequest id company grade]) (all ++ ts))
      as [ts' [E Pts']].
    { exact Hw. }
    exists (ts ++ ts'). rewrite E, logged_logged, app_assoc. cbn. now split; auto.
Qed.

Lemma companyLoop_collect companies :
  forall w all, answersWith P w id ->
  forall gradesOf,
    Forall2 (fun company grades => lookup company (gradeNumbers gn) = Some grades)
            companies gradesOf ->
  exists ts,
    companyLoop id gc gn companies all w =
      (Ok (all ++ ts),
       logged w (flat_map (fun cg => map (TransactionsRequest id (fst cg)) (snd cg))
                          (combine companies gradesOf)))
    /\ P ts.
Proof.
  induction companies as [|company rest IH]; intros w all Hw gradesOf HF.
  - inversion HF; subst. exists []. cbn. rewrite app_nil_r, logged_nil. now split.
  - inversion HF as [|? grades ? gradesOf' Hl HF']; subst.
    cbn [companyLoop]. rewrite Hl. unfold bind at 1.
    destruct (gradeLoop_collect company grades w all Hw) as [ts [-> Pts]].
    destruct (IH (logged w (map (TransactionsRequest id company) grades)) (all ++ ts) Hw
                 gradesOf' HF') as [ts' [-> Pts']].
    exists (ts ++ ts'). rewrite logged_logged, app_assoc. cbn. now split; auto.
Qed.

End Collect.

Section Log.

Variables (id : JsVal) (gc gn : Param).
Hypothesis no_break : truthy gc && truthy gn = false.

(** Without an early exit the inner loop sends the sub-queries of its
    grades in order, stops at the first that fails, and returns only once
    all of them are sent. *)
Lemma gradeLoop_log company grades :
  forall w all,
  exists k,
    snd (gradeLoop id gc gn company grades all w)
      = logged w (firstn k (map (TransactionsRequest id company) grades))
    /\ (forall ts, fst (gradeLoop id gc gn company grades all w) = Ok ts ->
        firstn k (map (TransactionsRequest id company) grades)
          = map (TransactionsRequest id company) grades).
Proof.
  induction grades as [|grade rest IH]; intros w all.
  - exists 0%nat. cbn. now rewrite logged_nil.
  - rewrite gradeLoop_cons.
    destruct (decodeTransactions _ company grade) as [ts|e].
    + rewrite breakEarly_off by exact no_break.
      destruct (IH (logged w [TransactionsRequest id company grade]) (all ++ ts))
        as [k [Hk Hfull]].
      exists (S k). rewrite Hk, logged_logged. cbn. split; [reflexivity|].
      intros ts' Hok. now rewrite (Hfull ts' Hok).
    + exists 1%nat. cbn. split; [reflexivity | discriminate].
Qed.

Lemma companyLoop_log companies :
  forall gradesOf,
    Forall2 (fun company grades => lookup company (gradeNumbers gn) = Some grades)
            companies gradesOf ->
  forall w all,
  let requests := flat_map (fun cg => map (TransactionsRequest id (fst cg)) (snd cg))
                           (combine companies gradesOf) in
  exists k,
    snd (companyLoop id gc gn companies all w) = logged w (firstn k requests)
    /\ (forall ts, fst (companyLoop id gc gn companies all w) = Ok ts ->
        firstn k requests = requests).
Proof.
  induction companies as [|company rest IH]; intros gradesOf HF w all; cbv zeta.
  - inversion HF; subst. exists 0%nat. cbn. now rewrite logged_nil.
  - inversion HF as [|? grades ? gradesOf' Hl HF']; subst.
    cbn [companyLoop combine flat_map fst snd]. rewrite Hl. unfold bind at 1 2.
    destruct (gradeLoop_log company grades w all) as [k [Hk Hfull]].
    destruct (gradeLoop id gc gn company grades all w) as [[ts|e] w1]; cbn [fst snd] in *.
    + rewrite (Hfull ts eq_refl) in Hk. subst w1.
      destruct (IH gradesOf' HF' (logged w (map (TransactionsRequest id company) grades))
                   ts) as [k' [Hk' Hfull']].
      exists (List.length (map (TransactionsRequest id company) grades) + k')%nat.
      rewrite firstn_app_2, Hk', logged_logged. split; [reflexivity|].
      intros ts' Hok. now rewrite (Hfull' ts' Hok).
    + exists (Nat.min k (List.length (map (TransactionsRequest id company) grades))).
      split; [|discriminate].
      rewrite Hk. f_equal. rewrite firstn_app.
      replace (_ - _)%nat with 0%nat by lia. cbn [firstn]. rewrite app_nil_r.
      now rewrite <- firstn_firstn, firstn_all.
Qed.

End Log.


Lemma falsy_companies gc : truthy gc = false -> gradingCompanies gc = ["PSA"; "BGS"].
Proof. unfold gradingCompanies. intros H. destruct gc; [rewrite H|]; reflexivity. Qed.

Lemma falsy_grades gn defaults : truthy gn = false -> gradesOr gn defaults = defaults.
Proof. unfold gradesOr. intros H. destruct gn; [rewrite H|]; reflexivity. Qed.

(** With no company given, the sub-queries are those of PSA then BGS, each
    with its grades; the call sends a prefix of them and returns only once
    all are sent. *)
Lemma getPrices_log id gc gn w :
  truthy gc = false ->
  let requests :=
    map (TransactionsRequest id "PSA") (gradesOr gn ["9.0"; "10.0"])
    ++ map (TransactionsRequest id "BGS") (gradesOr gn ["9.0"; "9.5"; "10.0"]) in
  exists k,
    snd (getPrices id gc gn w) = logged w (firstn k requests)
    /\ (forall ts, fst (getPrices id gc gn w) = Ok ts ->
        snd (getPrices id gc gn w) = logged w requests).
Proof.
  intros Hgc. cbv zeta. unfold getPrices. rewrite (falsy_companies gc Hgc).
  destruct (companyLoop_log id gc gn) with (companies := ["PSA"; "BGS"])
    (gradesOf := [gradesOr gn ["9.0"; "10.0"]; gradesOr gn ["9.0"; "9.5"; "10.0"]])
    (w := w) (all := @nil Transaction) as [k [Hk Hfull]].
  - now rewrite Hgc.
  - repeat constructor.
  - cbn [combine flat_map fst snd] in Hk, Hfull. rewrite app_nil_r in Hk, Hfull.
    exists k. split; [exact Hk|].
    intros ts Hok. rewrite Hk. f_equal. exact (Hfull ts Hok).
Qed.

(** Without filters the whole matrix is queried, whatever the answers hold. *)
Lemma getPrices_unfiltered (P : list Transaction -> Prop) id gc gn w :
  P [] -> (forall a b, P a -> P b -> P (a ++ b)) ->
  truthy gc = false -> truthy gn = false ->
  answersWith P w id ->
  exists ts, getPrices id gc gn w = (Ok ts, logged w (fullMatrix id)) /\ P ts.
Proof.
  intros P0 Papp Hgc Hgn Hw.
  unfold getPrices. rewrite (falsy_companies gc Hgc).
  destruct (companyLoop_collect P P0 Papp id gc gn) with (companies := ["PSA"; "BGS"])
    (w := w) (all := @nil Transaction) (gradesOf := [["9.0"; "10.0"]; ["9.0"; "9.5"; "10.0"]])
    as [ts [E Pts]].
  - now rewrite Hgc.
  - exact Hw.
  - unfold gradeNumbers. rewrite !falsy_grades by exact Hgn. repeat constructor.
  - exists ts. split; [exact E | exact Pts].
Qed.

Lemma answersAll_with w id : answersAll w id -> answersWith (fun _ => True) w id.
Proof.
  intros H history company grade. destruct (H history company grade) as [ts E].
  exists ts. now split.
Qed.

Lemma answersEmpty_with w id : answersEmpty w id -> answersWith (fun ts => ts = []) w id.
Proof.
  intros H history company grade. exists []. split; [apply H | reflexivity].
Qed.

(** ** The price aggregator *)

(** C2: with neither [gradingCompany] nor [gradeNumber] supplied, one call
    of [getPrices], for any asset id, sends the sub-queries PSA 9.0, PSA 10.0,
    BGS 9.0, BGS 9.5 and BGS 10.0 in that order and nothing else.  It returns
    only after all five are sent, whatever the answers hold, so no answer
    ends it early; it does return when the upstream answers each sub-query;
    and a sub-query that fails ends the call with the queries sent so far. *)
Theorem getPrices_full_matrix_five_queries id gc gn w :
  truthy gc = false -> truthy gn = false ->
  List.length (fullMatrix id) = 5%nat
  /\ (forall ts w', getPrices id gc gn w = (Ok ts, w') -> w' = logged w (fullMatrix id))
  /\ (answersAll w id ->
      exists ts, getPrices id gc gn w = (Ok ts, logged w (fullMatrix id)))
  /\ (exists k, snd (getPrices id gc gn w) = logged w (firstn k (fullMatrix id))).
Proof.
  intros Hgc Hgn.
  destruct (getPrices_log id gc gn w Hgc) as [k [Hk Hfull]].
  rewrite !falsy_grades in Hk, Hfull by exact Hgn.
  split; [reflexivity|]. split; [|split].
  - intros ts w' E. rewrite E in Hfull. exact (Hfull ts eq_refl).
  - intros Hw.
    destruct (getPrices_unfiltered (fun _ => True) id gc gn w) as [ts [E _]]; auto.
    + now apply answersAll_with.
    + exists ts. exact E.
  - exists k. exact Hk.
Qed.

(** C8: with [gradingCompany = "PSA"] and [gradeNumber = "10.0"] one call
    of [getPrices] sends exactly one sub-query, the one for PSA 10.0, and no
    other pair is queried; when the answer for that pair is a non-empty list
    of transactions, the call returns that list. *)
Theorem getPrices_explicit_pair_one_query id w :
  snd (getPrices id (Some "PSA") (Some "10.0") w)
    = logged w [TransactionsRequest id "PSA" "10.0"]
  /\ (forall st data ts,
        upstream w (sent w) (TransactionsRequest id "PSA" "10.0")
          = FetchResponse st (Some data) ->
        marketTransactionsOf data "PSA" "10.0" = Ok ts ->
        ts <> [] ->
        getPrices id (Some "PSA") (Some "10.0") w
          = (Ok ts, logged w [TransactionsRequest id "PSA" "10.0"])).
Proof.
  assert (E : getPrices id (Some "PSA") (Some "10.0") w =
              gradeLoop id (Some "PSA") (Some "10.0") "PSA" ["10.0"] [] w).
  { unfold getPrices. cbn [gradingCompanies truthy String.eqb Ascii.eqb Bool.eqb negb].
    cbn [companyLoop].
    cbn [lookup gradeNumbers gradesOr truthy String.eqb Ascii.eqb Bool.eqb negb].
    unfold bind.
    destruct (gradeLoop _ _ _ _ _ _ w) as [[ts|e] w']; reflexivity. }
  rewrite E, gradeLoop_cons. split.
  - destruct (decodeTransactions _ _ _) as [ts|e]; [|reflexivity].
    destruct (breakEarly _ _ _); reflexivity.
  - intros st data ts Hup Hdec Hne. rewrite Hup. cbn [decodeTransactions].
    rewrite Hdec. cbn [app].
    destruct ts as [|t ts']; [contradiction | reflexivity].
Qed.

(** C10: with [gradeNumber] supplied and [gradingCompany] not, one call of
    [getPrices] sends the sub-query for PSA and then the one for BGS, each
    with the given grade, and nothing else.  It returns only after both are
    sent, whether or not the first found transactions; it does return when
    the upstream answers; and a sub-query that fails ends the call. *)
Theorem getPrices_grade_only_two_queries id gc g w :
  truthy gc = false -> truthy (Some g) = true ->
  let requests := [TransactionsRequest id "PSA" g; TransactionsRequest id "BGS" g] in
  (forall ts w', getPrices id gc (Some g) w = (Ok ts, w') -> w' = logged w requests)
  /\ (answersAll w id ->
      exists ts, getPrices id gc (Some g) w = (Ok ts, logged w requests))
  /\ (exists k, snd (getPrices id gc (Some g) w) = logged w (firstn k requests)).
Proof.
  intros Hgc Hg. cbv zeta.
  destruct (getPrices_log id gc (Some g) w Hgc) as [k [Hk Hfull]].
  unfold gradesOr in Hk, Hfull. rewrite Hg in Hk, Hfull. cbn [map app] in Hk, Hfull.
  split; [|split].
  - intros ts w' E. rewrite E in Hfull. exact (Hfull ts eq_refl).
  - intros Hw. unfold getPrices. rewrite (falsy_companies gc Hgc).
    destruct (companyLoop_collect (fun _ => True) I (fun _ _ _ _ => I) id gc (Some g))
      with (companies := ["PSA"; "BGS"]) (w := w) (all := @nil Transaction)
           (gradesOf := [[g]; [g]]) as [ts [E _]].
    + now rewrite Hgc.
    + now apply answersAll_with.
    + unfold gradeNumbers, gradesOr. rewrite Hg. repeat constructor.
    + exists ts. exact E.
  - exists k. exact Hk.
Qed.

(** ** The resolver *)

Lemma getProp_ok v k k' x : getProp v k = Ok x -> exists y, getProp v k' = Ok y.
Proof.
  destruct v; cbn; try discriminate; eauto.
  intros _. destruct (lookup k' fields); eauto.
Qed.

Lemma getPath_snoc ks : forall v k,
  getPath v (ks ++ [k]) =
  match getPath v ks with
  | Ok x => getProp x k
  | Throw e => Throw e
  end.
Proof.
  induction ks as [|k0 ks IH]; intros v k; cbn.
  - now destruct (getProp v k).
  - destruct (getProp v k0); [apply IH | reflexivity].
Qed.

Lemma getPath_asset data k :
  getPath data ["data"; "cert"; "asset"; k] =
  match getPath data ["data"; "cert"; "asset"] with
  | Ok asset => getProp asset k
  | Throw e => Throw e
  end.
Proof. exact (getPath_snoc ["data"; "cert"; "asset"] data k). Qed.

Lemma getInternalId_run slabNumber w :
  getInternalId slabNumber w =
  (decodeId (upstream w (sent w) (CertRequest slabNumber)),
   logged w [CertRequest slabNumber]).
Proof.
  unfold getInternalId, bind at 1. rewrite fetch_run.
  destruct (upstream w (sent w) _) as [|st [data|]]; cbn [decodeId]; try reflexivity.
  unfold json, bind, ret, lift. cbn [body].
  rewrite !getPath_asset.
  destruct (getPath data ["data"; "cert"; "asset"]) as [asset|e]; [|reflexivity].
  destruct (getProp asset "id") as [x|e] eqn:E; [|reflexivity].
  destruct (getProp_ok _ _ "name" _ E) as [y ->]. reflexivity.
Qed.

Lemma getInternalId_plain_run slabNumber w :
  getInternalId_plain slabNumber w =
  (decodeId (upstream w (sent w) (CertRequest slabNumber)),
   logged w [CertRequest slabNumber]).
Proof.
  unfold getInternalId_plain, bind at 1. rewrite fetch_run.
  destruct (upstream w (sent w) _) as [|st [data|]]; reflexivity.
Qed.

Lemma decodeId_fails out :
  (exists e, decodeId out = Throw e) <-> resolverFails out = true.
Proof.
  destruct out as [|st [data|]]; cbn [decodeId resolverFails].
  - split; [reflexivity | intros _; now eexists].
  - unfold assetOf. rewrite getPath_asset.
    destruct (getPath data ["data"; "cert"; "asset"]) as [asset|e].
    + destruct asset; cbn; split; intros H;
        try reflexivity; try discriminate; try (now eexists);
        try (destruct H; discriminate).
      destruct (lookup "id" fields); destruct H; discriminate.
    + split; [reflexivity | intros _; now eexists].
  - split; [reflexivity | intros _; now eexists].
Qed.

Lemma decodeId_returns out :
  resolverFails out = false ->
  exists st data asset id,
    out = FetchResponse st (Some data) /\ assetOf data = Some asset
    /\ getProp asset "id" = Ok id /\ decodeId out = Ok id.
Proof.
  destruct out as [|st [data|]]; cbn [decodeId resolverFails]; try discriminate.
  destruct (assetOf data) as [asset|] eqn:E; [intros _|discriminate].
  pose proof E as E'. unfold assetOf in E'. rewrite getPath_asset.
  destruct (getPath data ["data"; "cert"; "asset"]) as [a|e]; [|discriminate].
  assert (a = asset) by (destruct a; congruence). subst a.
  destruct (getProp asset "id") as [id|e] eqn:Eid.
  - exists st, data, asset, id. repeat split; auto.
  - destruct asset; cbn in *; try discriminate.
    destruct (lookup "id" fields); discriminate.
Qed.

(** ** The request handler *)

Lemma calculateConfidence_run host prices w :
  calculateConfidence host prices w =
  (Ok (confidenceAt host prices (fun k => clock w (k + clockReads w)%nat)), ticked w 4).
Proof. reflexivity. Qed.

Lemma handler_run host slabNumber gc gn w :
  truthy (Some slabNumber) = true ->
  handler host (mkQuery (Some slabNumber) gc gn) w =
  match getInternalId slabNumber w with
  | (Throw _, w1) => (Ok (ResSend 500 "Error fetching data"), w1)
  | (Ok id, w1) =>
      match getPrices id gc gn w1 with
      | (Throw _, w2) => (Ok (ResSend 500 "Error fetching data"), w2)
      | (Ok prices, w2) =>
          match (if Nat.eqb (List.length prices) 0
                 then getPrices id None None w2 else (Ok prices, w2)) with
          | (Throw _, w3) => (Ok (ResSend 500 "Error fetching data"), w3)
          | (Ok prices, w3) =>
              (Ok (ResJson prices
                     (confidenceAt host prices (fun k => clock w3 (k + clockReads w3)%nat))),
               ticked w3 4)
          end
      end
  end.
Proof.
  intros Hs. unfold handler. cbn [q_slabNumber q_gradingCompany q_gradeNumber].
  rewrite Hs. cbn [negb]. unfold tryCatch, bind.
  destruct (getInternalId slabNumber w) as [[id|e] w1]; [|reflexivity].
  destruct (getPrices id gc gn w1) as [[prices|e] w2]; [|reflexivity].
  destruct (Nat.eqb (List.length prices) 0).
  - destruct (getPrices id None None w2) as [[prices'|e] w3]; [|reflexivity].
    rewrite calculateConfidence_run. reflexivity.
  - unfold ret at 1. rewrite calculateConfidence_run. reflexivity.
Qed.

(** The sample worlds answer every sub-query. *)
Lemma scenario_answers id : answersAll SampleHost.scenario id.
Proof.
  intros history company grade. cbn.
  destruct (SampleHost.isPair company grade "PSA" "10.0"); eexists; reflexivity.
Qed.

Lemma noSales_answers id : answersEmpty SampleHost.noSales id.
Proof. intros history company grade. reflexivity. Qed.

Lemma getPrices_full_matrix_five_queries_witness :
  truthy None = false /\ answersAll SampleHost.scenario (JStr "A1")
  /\ exists ts,
       getPrices (JStr "A1") None None SampleHost.scenario
         = (Ok ts, logged SampleHost.scenario (fullMatrix (JStr "A1"))).
Proof.
  split; [reflexivity|]. split; [apply scenario_answers|].
  apply (getPrices_full_matrix_five_queries (JStr "A1") None None SampleHost.scenario);
    [reflexivity | reflexivity | apply scenario_answers].
Defined.

Lemma getPrices_explicit_pair_one_query_witness :
  let data := SampleHost.transactionsBody
                [SampleHost.sale "100.00" "2024-05-11";
                 SampleHost.sale "105.00" "2024-05-21"] in
  let ts := [mkTransaction (JStr "100.00") (JStr "2024-05-11") "PSA" "10.0";
             mkTransaction (JStr "105.00") (JStr "2024-05-21") "PSA" "10.0"] in
  upstream SampleHost.scenario (sent SampleHost.scenario)
           (TransactionsRequest (JStr "A1") "PSA" "10.0")
    = FetchResponse 200 (Some data)
  /\ marketTransactionsOf data "PSA" "10.0" = Ok ts
  /\ ts <> []
  /\ getPrices (JStr "A1") (Some "PSA") (Some "10.0") SampleHost.scenario
       = (Ok ts, logged SampleHost.scenario [TransactionsRequest (JStr "A1") "PSA" "10.0"]).
Proof.
  cbv zeta. split; [reflexivity|]. split; [reflexivity|]. split; [discriminate|].
  apply (proj2 (getPrices_explicit_pair_one_query (JStr "A1") SampleHost.scenario)
           200
           (SampleHost.transactionsBody
              [SampleHost.sale "100.00" "2024-05-11";
               SampleHost.sale "105.00" "2024-05-21"]));
    [reflexivity | reflexivity | discriminate].
Defined.

Lemma getPrices_grade_only_two_queries_witness :
  truthy None = false /\ truthy (Some "10.0") = true
  /\ answersAll SampleHost.scenario (JStr "A1")
  /\ exists ts,
       getPrices (JStr "A1") None (Some "10.0") SampleHost.scenario
         = (Ok ts, logged SampleHost.scenario
                     [TransactionsRequest (JStr "A1") "PSA" "10.0";
                      TransactionsRequest (JStr "A1") "BGS" "10.0"]).
Proof.
  split; [reflexivity|]. split; [reflexivity|]. split; [apply scenario_answers|].
  apply (getPrices_grade_only_two_queries (JStr "A1") None "10.0" SampleHost.scenario);
    [reflexivity | reflexivity | apply scenario_answers].
Defined.

(** ** The handler's fallback and the resolver's failures *)

(** C1: when the first call of the aggregator, made with both filters, comes
    back with no transaction, the handler calls the aggregator again without
    filters; what it answers is the unfiltered result together with the
    confidence computed over that result (or 500 when the second call
    fails). *)
Theorem handler_falls_back_to_unfiltered host slabNumber gc gn w id w1 w2 :
  truthy (Some slabNumber) = true ->
  truthy gc = true -> truthy gn = true ->
  getInternalId slabNumber w = (Ok id, w1) ->
  getPrices id gc gn w1 = (Ok [], w2) ->
  match getPrices id None None w2 with
  | (Ok unfiltered, w3) =>
      exists confidence w4,
        calculateConfidence host unfiltered w3 = (Ok confidence, w4)
        /\ handler host (mkQuery (Some slabNumber) gc gn) w
             = (Ok (ResJson unfiltered confidence), w4)
  | (Throw _, w3) =>
      handler host (mkQuery (Some slabNumber) gc gn) w
        = (Ok (ResSend 500 "Error fetching data"), w3)
  end.
Proof.
  intros Hs _ _ Hid Hfirst.
  rewrite (handler_run host slabNumber gc gn w Hs), Hid, Hfirst. cbn [List.length Nat.eqb].
  destruct (getPrices id None None w2) as [[unfiltered|e] w3]; [|reflexivity].
  eexists. eexists. split; [apply calculateConfidence_run | reflexivity].
Qed.

Lemma handler_falls_back_to_unfiltered_witness :
  let w := SampleHost.onlyBGS in
  let w1 := logged w [CertRequest "12345678"] in
  let w2 := logged w1 [TransactionsRequest (JStr "A1") "PSA" "10.0"] in
  truthy (Some "12345678") = true
  /\ truthy (Some "PSA") = true /\ truthy (Some "10.0") = true
  /\ getInternalId "12345678" w = (Ok (JStr "A1"), w1)
  /\ getPrices (JStr "A1") (Some "PSA") (Some "10.0") w1 = (Ok [], w2)
  /\ match getPrices (JStr "A1") None None w2 with
     | (Ok unfiltered, w3) =>
         exists confidence w4,
           calculateConfidence SampleHost.host unfiltered w3 = (Ok confidence, w4)
           /\ handler SampleHost.host
                (mkQuery (Some "12345678") (Some "PSA") (Some "10.0")) w
                = (Ok (ResJson unfiltered confidence), w4)
     | (Throw _, w3) =>
         handler SampleHost.host
           (mkQuery (Some "12345678") (Some "PSA") (Some "10.0")) w
           = (Ok (ResSend 500 "Error fetching data"), w3)
     end.
Proof.
  cbv zeta. repeat (split; [reflexivity|]).
  apply (handler_falls_back_to_unfiltered SampleHost.host "12345678"
           (Some "PSA") (Some "10.0") SampleHost.onlyBGS (JStr "A1")
           (logged SampleHost.onlyBGS [CertRequest "12345678"])
           (logged (logged SampleHost.onlyBGS [CertRequest "12345678"])
                   [TransactionsRequest (JStr "A1") "PSA" "10.0"]));
    reflexivity.
Defined.

(** C9: the fallback looks at emptiness only.  Whatever the filters, absent
    ones included, a first aggregation that comes back empty is followed by
    the unfiltered aggregation; hence a request without filters for an asset
    with no transaction under any pair sends the five sub-queries of the
    matrix twice, ten in all, after the certificate lookup. *)
Theorem handler_empty_matrix_queried_twice host slabNumber w id :
  truthy (Some slabNumber) = true ->
  fst (getInternalId slabNumber w) = Ok id ->
  (forall gc gn w2,
     getPrices id gc gn (logged w [CertRequest slabNumber]) = (Ok [], w2) ->
     sent (snd (handler host (mkQuery (Some slabNumber) gc gn) w))
       = sent (snd (getPrices id None None w2)))
  /\ (answersEmpty w id ->
      exists confidence w',
        handler host (mkQuery (Some slabNumber) None None) w
          = (Ok (ResJson [] confidence), w')
        /\ sent w' = sent w ++ CertRequest slabNumber :: fullMatrix id ++ fullMatrix id
        /\ List.length (fullMatrix id ++ fullMatrix id) = 10%nat).
Proof.
  intros Hs Hid. rewrite getInternalId_run in Hid. cbn [fst] in Hid.
  split.
  - intros gc gn w2 Hfirst.
    rewrite (handler_run host slabNumber gc gn w Hs), getInternalId_run, Hid, Hfirst.
    cbn [List.length Nat.eqb].
    destruct (getPrices id None None w2) as [[unfiltered|e] w3]; reflexivity.
  - intros Hempty.
    rewrite (handler_run host slabNumber None None w Hs), getInternalId_run, Hid.
    destruct (getPrices_unfiltered (fun ts => ts = []) id None None
                (logged w [CertRequest slabNumber])) as [ts [-> ->]]; auto.
    { now intros a b -> ->. }
    { now apply answersEmpty_with. }
    cbn [List.length Nat.eqb].
    destruct (getPrices_unfiltered (fun ts => ts = []) id None None
                (logged (logged w [CertRequest slabNumber]) (fullMatrix id)))
      as [ts [-> ->]]; auto.
    { now intros a b -> ->. }
    { now apply answersEmpty_with. }
    eexists. eexists. split; [reflexivity|]. split; [|reflexivity].
    cbn [sent ticked logged]. now rewrite <- !app_assoc.
Qed.

Lemma handler_empty_matrix_queried_twice_witness :
  truthy (Some "12345678") = true
  /\ fst (getInternalId "12345678" SampleHost.noSales) = Ok (JStr "A1")
  /\ answersEmpty SampleHost.noSales (JStr "A1")
  /\ exists confidence w',
       handler SampleHost.host (mkQuery (Some "12345678") None None) SampleHost.noSales
         = (Ok (ResJson [] confidence), w')
       /\ sent w' = sent SampleHost.noSales
                    ++ CertRequest "12345678"
                       :: fullMatrix (JStr "A1") ++ fullMatrix (JStr "A1")
       /\ List.length (fullMatrix (JStr "A1") ++ fullMatrix (JStr "A1")) = 10%nat.
Proof.
  split; [reflexivity|]. split; [reflexivity|]. split; [apply noSales_answers|].
  apply (handler_empty_matrix_queried_twice SampleHost.host "12345678"
           SampleHost.noSales (JStr "A1"));
    [reflexivity | reflexivity | apply noSales_answers].
Defined.

(** C4, as the code has it: the resolver fails exactly when the call is
    rejected, the body is not JSON, or the chain [data.cert.asset] of the
    body cannot be followed to a value with properties; the HTTP status plays
    no part.  The handler turns each of these failures into a 500.  In every
    other case the resolver returns what the asset holds under [id], which is
    [undefined] when the asset has no such property.  The revision that logs
    the id and the name and the ones that do not behave alike. *)
Theorem getInternalId_fails_exactly host slabNumber gc gn w :
  let out := upstream w (sent w) (CertRequest slabNumber) in
  ((exists e, fst (getInternalId slabNumber w) = Throw e)
     <-> resolverFails out = true)
  /\ (resolverFails out = true -> truthy (Some slabNumber) = true ->
      fst (handler host (mkQuery (Some slabNumber) gc gn) w)
        = Ok (ResSend 500 "Error fetching data"))
  /\ (resolverFails out = false ->
      exists st data asset id,
        out = FetchResponse st (Some data)
        /\ assetOf data = Some asset
        /\ getProp asset "id" = Ok id
        /\ fst (getInternalId slabNumber w) = Ok id)
  /\ getInternalId_plain slabNumber w = getInternalId slabNumber w.
Proof.
  cbv zeta. rewrite getInternalId_run, getInternalId_plain_run. cbn [fst].
  split; [apply decodeId_fails|]. split; [|split; [apply decodeId_returns | reflexivity]].
  intros Hf Hs. apply decodeId_fails in Hf. destruct Hf as [e He].
  rewrite (handler_run host slabNumber gc gn w Hs), getInternalId_run, He. reflexivity.
Qed.

(** C4 fails as stated: a certificate answer with status 500 and a complete
    body is resolved to its id and the request is served; and an answer whose
    asset lacks [id] is resolved to [undefined] without any error. *)
Lemma getInternalId_ignores_status :
  (successStatus 500 = false
   /\ upstream SampleHost.status500 (sent SampleHost.status500) (CertRequest "12345678")
      = FetchResponse 500 (Some (SampleHost.certBody "A1" "Sample card"))
   /\ fst (getInternalId "12345678" SampleHost.status500) = Ok (JStr "A1")
   /\ exists confidence,
        fst (handler SampleHost.host (mkQuery (Some "12345678") None None)
                     SampleHost.status500)
          = Ok (ResJson [] confidence))
  /\ (getPath (JObj [("data", JObj [("cert", JObj [("asset", JObj [])])])])
              ["data"; "cert"; "asset"; "id"] = Ok JUndefined
      /\ fst (getInternalId "12345678" SampleHost.assetWithoutId) = Ok JUndefined).
Proof.
  split.
  - split; [reflexivity|]. split; [reflexivity|]. split; [reflexivity|].
    exists (confidenceAt SampleHost.host [] (fun _ => SampleHost.today)).
    vm_compute. reflexivity.
  - split; reflexivity.
Qed.

Local Open Scope float_scope.

(** ** Floating-point facts *)



Lemma float_mul_comm (x y : float) : x * y = y * x.
Proof.
  apply Prim2SF_inj. rewrite !mul_spec. unfold SF64mul, SFmul.
  destruct (Prim2SF x) as [sx|sx| |sx mx ex], (Prim2SF y) as [sy|sy| |sy my ey];
    try reflexivity; try (now rewrite xorb_comm).
  now rewrite xorb_comm, Pos.mul_comm, Z.add_comm.
Qed.




(** ** The estimator *)

Lemma levelOf_rating mean deviation : levelOf mean deviation = rating mean deviation.
Proof. unfold levelOf, rating. now rewrite !(float_mul_comm mean). Qed.

Lemma sumOf_map {A : Type} (f : A -> float) (xs : list A) :
  sumOf f xs = fold_left PrimFloat.add (map f xs) 0.
Proof.
  unfold sumOf. generalize 0. induction xs as [|x xs IH]; intros acc; cbn; auto.
Qed.

Lemma lengthNum_map {A B : Type} (f : A -> B) (xs : list A) :
  lengthNum (map f xs) = lengthNum xs.
Proof. unfold lengthNum. now rewrite length_map. Qed.

Lemma nonempty_length {A : Type} (xs : list A) :
  xs <> [] -> Nat.eqb (List.length xs) 0 = false.
Proof. destruct xs; [contradiction | reflexivity]. Qed.

(** The statistics of a non-empty set, in the specification's words. *)
Lemma calculateAverageAndDeviation_nonempty recentPrices :
  recentPrices <> [] ->
  calculateAverageAndDeviation recentPrices =
  let xs := map p_price recentPrices in
  mkStats (arithmeticMean xs) (meanAbsoluteDeviation xs)
          (rating (arithmeticMean xs) (meanAbsoluteDeviation xs)).
Proof.
  intros Hne. unfold calculateAverageAndDeviation.
  rewrite (nonempty_length _ Hne). cbv zeta.
  unfold meanAbsoluteDeviation, arithmeticMean.
  rewrite levelOf_rating, !sumOf_map, map_map, !lengthNum_map. reflexivity.
Qed.

Lemma confidenceOf_nonempty (xs : list float) :
  xs <> [] ->
  Legacy.confidenceOf xs = rating (arithmeticMean xs) (meanAbsoluteDeviation xs).
Proof.
  intros Hne. unfold Legacy.confidenceOf.
  rewrite (nonempty_length _ Hne). cbv zeta.
  unfold meanAbsoluteDeviation, arithmeticMean.
  rewrite levelOf_rating, !sumOf_map, map_id. reflexivity.
Qed.


(** C5: whatever the transactions, the multi-window estimator returns the
    four windows year, quarter, month and week, and each window whose
    filtered set is empty carries [averagePrice = 0], [averageDeviation = 0]
    and [confidenceLevel = Low]; with no transaction at all, every window
    does. *)
Theorem empty_window_is_zero_and_low host prices w :
  exists results,
    calculateConfidence host prices w = (Ok results, ticked w 4)
    /\ map fst results = ["year"; "quarter"; "month"; "week"]
    /\ (forall period r,
          In (period, r) results -> recentPrices r = [] ->
          averagePrice (stats r) = 0 /\ averageDeviation (stats r) = 0
          /\ confidenceLevel (stats r) = Low)
    /\ (forall period r,
          In (period, r) results -> prices = [] ->
          averagePrice (stats r) = 0 /\ averageDeviation (stats r) = 0
          /\ confidenceLevel (stats r) = Low).
Proof.
  eexists. split; [apply calculateConfidence_run|]. split; [reflexivity|].
  assert (H : forall period r,
             In (period, r)
                (confidenceAt host prices (fun k => clock w (k + clockReads w)%nat)) ->
             recentPrices r = [] ->
             averagePrice (stats r) = 0 /\ averageDeviation (stats r) = 0
             /\ confidenceLevel (stats r) = Low).
  { intros period r Hin Hempty. unfold confidenceAt in Hin. cbn [In] in Hin.
    repeat match goal with
           | H : _ \/ _ |- _ => destruct H
           | H : False |- _ => contradiction
           | H : (_, _) = (_, _) |- _ => injection H as _ <-
           end;
      unfold windowAt in *; cbn [recentPrices stats] in *;
      rewrite Hempty; cbn; auto. }
  split; [exact H|].
  intros period r Hin ->. apply (H period r Hin).
  unfold confidenceAt in Hin. cbn [In] in Hin.
  repeat match goal with
         | H : _ \/ _ |- _ => destruct H
         | H : False |- _ => contradiction
         | H : (_, _) = (_, _) |- _ => injection H as _ <-
         end; reflexivity.
Qed.

(** C6: for a non-empty filtered set, [averagePrice] is the arithmetic mean
    of the prices, [averageDeviation] their mean absolute deviation from it,
    and the level is [High] when the deviation is below 0.10 times the mean,
    else [Medium] when it is below 0.20 times the mean, else [Low]; the
    single-window revision rates a non-empty list of prices in the same
    way. *)
Theorem nonempty_set_is_rated_by_dispersion recentPrices (legacyPrices : list float) :
  recentPrices <> [] -> legacyPrices <> [] ->
  let xs := map p_price recentPrices in
  let s := calculateAverageAndDeviation recentPrices in
  averagePrice s = arithmeticMean xs
  /\ averageDeviation s = meanAbsoluteDeviation xs
  /\ confidenceLevel s =
       (if averageDeviation s <? tenth * averagePrice s then High
        else if averageDeviation s <? fifth * averagePrice s then Medium
        else Low)
  /\ Legacy.confidenceOf legacyPrices =
       (if meanAbsoluteDeviation legacyPrices <? tenth * arithmeticMean legacyPrices
        then High
        else if meanAbsoluteDeviation legacyPrices <? fifth * arithmeticMean legacyPrices
        then Medium
        else Low).
Proof.
  intros Hne Hne'. cbv zeta.
  rewrite (calculateAverageAndDeviation_nonempty _ Hne). cbv zeta.
  cbn [averagePrice averageDeviation confidenceLevel].
  repeat split; try reflexivity.
  exact (confidenceOf_nonempty legacyPrices Hne').
Qed.

Lemma nonempty_set_is_rated_by_dispersion_witness :
  let recentPrices := [mkPricePoint 90 (JStr "2024-05-11");
                       mkPricePoint 115 (JStr "2024-05-21")] in
  recentPrices <> [] /\ [90; 115] <> []
  /\ averagePrice (calculateAverageAndDeviation recentPrices) = 102.5
  /\ averageDeviation (calculateAverageAndDeviation recentPrices) = 12.5
  /\ confidenceLevel (calculateAverageAndDeviation recentPrices) = Medium
  /\ Legacy.confidenceOf [90; 115] = Medium.
Proof.
  cbv zeta. split; [discriminate|]. split; [discriminate|].
  destruct (nonempty_set_is_rated_by_dispersion
              [mkPricePoint 90 (JStr "2024-05-11"); mkPricePoint 115 (JStr "2024-05-21")]
              [90; 115])
    as [Hm [Hd [Hl Hlegacy]]]; [discriminate | discriminate |].
  rewrite Hl, Hd, Hm, Hlegacy. repeat split; reflexivity.
Defined.



Local Close Scope float_scope.

(** ** The date filters *)

Lemma dateLe_spec a b :
  JsDate.dateLe a b = true <-> exists d c, a = Some d /\ b = Some c /\ (d <= c)%Z.
Proof.
  unfold JsDate.dateLe. destruct a as [d|], b as [c|]; split;
    try discriminate; try (intros (? & ? & ? & ? & _); discriminate).
  - intros H. exists d, c. repeat split. now apply Z.leb_le.
  - intros (d' & c' & [= <-] & [= <-] & H). now apply Z.leb_le.
Qed.

Lemma dateGe_spec a b :
  JsDate.dateGe a b = true <-> exists d c, a = Some d /\ b = Some c /\ (c <= d)%Z.
Proof.
  unfold JsDate.dateGe. destruct a as [d|], b as [c|]; split;
    try discriminate; try (intros (? & ? & ? & ? & _); discriminate).
  - intros H. exists d, c. repeat split. now apply Z.leb_le.
  - intros (d' & c' & [= <-] & [= <-] & H). now apply Z.leb_le.
Qed.

(** ** Dates at a fixed offset from UTC *)

Lemma MonthFromTime_range t : 0 <= JsDate.MonthFromTime t <= 11.
Proof.
  unfold JsDate.MonthFromTime. cbv zeta.
  repeat match goal with |- context [if ?b then _ else _] => destruct b end; lia.
Qed.

Lemma Day_TimeWithinDay t :
  JsDate.MakeDate (JsDate.Day t) (JsDate.TimeWithinDay t) = t.
Proof.
  unfold JsDate.MakeDate, JsDate.Day, JsDate.TimeWithinDay, JsDate.msPerDay.
  pose proof (Z.div_mod t 86400000). lia.
Qed.

(** The day number of the date a time value falls on, recomposed from its
    year, month and day of the month, with the day moved by [delta]. *)
Lemma MakeDay_same_month t delta :
  JsDate.MakeDay (JsDate.YearFromTime t) (JsDate.MonthFromTime t)
                 (JsDate.DateFromTime t + delta)
  = JsDate.Day t + delta.
Proof.
  pose proof (MonthFromTime_range t) as Hm.
  unfold JsDate.MakeDay. cbv zeta.
  rewrite (Z.div_small (JsDate.MonthFromTime t) 12) by lia.
  rewrite (Z.mod_small (JsDate.MonthFromTime t) 12) by lia.
  rewrite Z.add_0_r.
  unfold JsDate.DateFromTime, JsDate.DayWithinYear, JsDate.InLeapYear. lia.
Qed.

Lemma setDate_fixed_offset host offset tv days :
  fixedOffset host offset ->
  JsDate.setDate (LocalTZA host) tv (JsDate.getDate (LocalTZA host) tv - days)
  = JsDate.TimeClip (tv - days * JsDate.msPerDay).
Proof.
  intros Hfix. unfold JsDate.setDate, JsDate.getDate, JsDate.LocalTime. cbv zeta.
  rewrite (Hfix tv true).
  replace (JsDate.DateFromTime (tv + offset) - days)
    with (JsDate.DateFromTime (tv + offset) + - days) by lia.
  rewrite MakeDay_same_month. unfold JsDate.UTC.
  rewrite (Hfix _ false). f_equal.
  pose proof (Day_TimeWithinDay (tv + offset)) as H.
  unfold JsDate.MakeDate in *. lia.
Qed.

Lemma TimeClip_in_range t days :
  inDateRange t -> 0 <= days <= 366 ->
  JsDate.TimeClip (t - days * JsDate.msPerDay) = Some (t - days * JsDate.msPerDay).
Proof.
  unfold inDateRange, JsDate.TimeClip, JsDate.msPerDay. intros Ht Hd.
  destruct (Z.leb_spec (Z.abs (t - days * 86400000)) 8640000000000000); [reflexivity|].
  lia.
Qed.

Lemma DayFromYear_step y :
  JsDate.DayFromYear (y + 1) = JsDate.DayFromYear y + JsDate.DaysInYear y.
Proof.
  unfold JsDate.DayFromYear, JsDate.DaysInYear.
  replace (y + 1 - 1970) with (y - 1970 + 1) by lia.
  replace (y + 1 - 1969) with (y - 1968) by lia.
  replace (y + 1 - 1901) with (y - 1900) by lia.
  replace (y + 1 - 1601) with (y - 1600) by lia.
  assert (H4 : (y - 1968) / 4 = (y - 1969) / 4 + (if y mod 4 =? 0 then 1 else 0)).
  { destruct (Z.eqb_spec (y mod 4) 0); Z.div_mod_to_equations; lia. }
  assert (H100 : (y - 1900) / 100 = (y - 1901) / 100 + (if y mod 100 =? 0 then 1 else 0)).
  { destruct (Z.eqb_spec (y mod 100) 0); Z.div_mod_to_equations; lia. }
  assert (H400 : (y - 1600) / 400 = (y - 1601) / 400 + (if y mod 400 =? 0 then 1 else 0)).
  { destruct (Z.eqb_spec (y mod 400) 0); Z.div_mod_to_equations; lia. }
  rewrite H4, H100, H400.
  assert (M1 : y mod 400 = 0 -> y mod 100 = 0) by (Z.div_mod_to_equations; lia).
  assert (M2 : y mod 100 = 0 -> y mod 4 = 0) by (Z.div_mod_to_equations; lia).
  destruct (Z.eqb_spec (y mod 4) 0), (Z.eqb_spec (y mod 100) 0), (Z.eqb_spec (y mod 400) 0);
    cbn [andb orb negb]; try lia.
Qed.

Lemma DaysInYear_cases y : JsDate.DaysInYear y = 365 \/ JsDate.DaysInYear y = 366.
Proof. unfold JsDate.DaysInYear. destruct (_ && _)%bool; auto. Qed.

Lemma monthStart_step m leap :
  1 <= m <= 11 -> (leap = 0 \/ leap = 1) ->
  28 <= JsDate.monthStart m leap - JsDate.monthStart (m - 1) leap <= 31.
Proof.
  intros Hm Hl.
  assert (H : m = 1 \/ m = 2 \/ m = 3 \/ m = 4 \/ m = 5 \/ m = 6 \/ m = 7
              \/ m = 8 \/ m = 9 \/ m = 10 \/ m = 11) by lia.
  destruct Hl as [->| ->];
    repeat (destruct H as [->|H]); try subst m; cbn; lia.
Qed.

(** The same day of the month before falls 28 to 31 days earlier. *)
Lemma MakeDay_previous_month t :
  exists L, 28 <= L <= 31
    /\ JsDate.MakeDay (JsDate.YearFromTime t) (JsDate.MonthFromTime t - 1)
                      (JsDate.DateFromTime t)
       = JsDate.Day t - L.
Proof.
  pose proof (MonthFromTime_range t) as Hm.
  unfold JsDate.DateFromTime, JsDate.DayWithinYear, JsDate.InLeapYear.
  set (Y := JsDate.YearFromTime t). set (M := JsDate.MonthFromTime t) in *.
  set (d := JsDate.Day t).
  unfold JsDate.MakeDay. cbv zeta.
  destruct (Z.eq_dec M 0) as [E0|N0].
  - rewrite E0. change ((0 - 1) / 12) with (-1). change ((0 - 1) mod 12) with 11.
    change (JsDate.monthStart 0 ?x) with 0.
    pose proof (DayFromYear_step (Y + -1)) as Hstep.
    replace (Y + -1 + 1) with Y in Hstep by lia.
    exists 31. split; [lia|].
    unfold JsDate.monthStart. cbn [Z.eqb Pos.eqb].
    destruct (DaysInYear_cases (Y + -1)) as [H|H]; rewrite H in *; cbn; lia.
  - rewrite (Z.div_small (M - 1) 12) by lia.
    rewrite (Z.mod_small (M - 1) 12) by lia.
    rewrite Z.add_0_r.
    set (leap := if JsDate.DaysInYear Y =? 366 then 1 else 0).
    assert (Hl : leap = 0 \/ leap = 1) by (unfold leap; destruct (_ =? _); auto).
    pose proof (monthStart_step M leap ltac:(lia) Hl) as Hs.
    exists (JsDate.monthStart M leap - JsDate.monthStart (M - 1) leap).
    split; [exact Hs | lia].
Qed.

Lemma setMonth_fixed_offset host offset tv :
  fixedOffset host offset ->
  exists L, 28 <= L <= 31
    /\ JsDate.setMonth (LocalTZA host) tv (JsDate.getMonth (LocalTZA host) tv - 1)
       = JsDate.TimeClip (tv - L * JsDate.msPerDay).
Proof.
  intros Hfix. unfold JsDate.setMonth, JsDate.getMonth, JsDate.LocalTime. cbv zeta.
  rewrite (Hfix tv true).
  destruct (MakeDay_previous_month (tv + offset)) as [L [HL E]].
  exists L. split; [exact HL|]. rewrite E. unfold JsDate.UTC.
  rewrite (Hfix _ false). f_equal.
  pose proof (Day_TimeWithinDay (tv + offset)) as H.
  unfold JsDate.MakeDate in *. lia.
Qed.

(** C7, with the cutoff the code computes: the two revisions compare a
    transaction's date with their cutoff in opposite directions.  The
    single-window revision keeps a transaction exactly when its date is valid
    and on or before [lastMonth], the clock moved back by one calendar month
    with [setMonth(getMonth() - 1)]; a window of the multi-window revision
    keeps it exactly when its date is valid and on or after [startDate], the
    clock moved back by the window's days, the cutoff itself included.  Where
    the two cutoffs fall on the same instant, a transaction dated off that
    instant is kept by one revision exactly when the other drops it.  On a
    host at a fixed offset from UTC, [lastMonth] lies 28 to 31 days before
    the clock, not thirty days as a rule, and [startDate] lies [days] days
    before it. *)
Theorem filters_compare_in_opposite_directions host prices w days t :
  let now := clock w (clockReads w) in
  let lastMonth := JsDate.setMonth (LocalTZA host) now
                     (JsDate.getMonth (LocalTZA host) now - 1) in
  let startDate := JsDate.setDate (LocalTZA host) now
                     (JsDate.getDate (LocalTZA host) now - days) in
  (lastMonth <> None ->
   Legacy.calculateConfidence host prices w =
     (Ok (Legacy.confidenceOf
            (map (fun transaction => parseFloat host (t_price transaction))
                 (Legacy.recentTransactions host lastMonth prices))),
      ticked w 1))
  /\ filterPrices host prices days w =
       (Ok (map (fun transaction =>
                   mkPricePoint (parseFloat host (t_price transaction))
                                (t_date transaction))
                (windowTransactions host startDate prices)),
        ticked w 1)
  /\ (In t (Legacy.recentTransactions host lastMonth prices) <->
      In t prices /\ exists d c,
        newDate host (t_date t) = Some d /\ lastMonth = Some c /\ (d <= c)%Z)
  /\ (In t (windowTransactions host startDate prices) <->
      In t prices /\ exists d c,
        newDate host (t_date t) = Some d /\ startDate = Some c /\ (c <= d)%Z)
  /\ (forall d c,
        In t prices -> newDate host (t_date t) = Some d ->
        lastMonth = Some c -> startDate = Some c -> d <> c ->
        (In t (Legacy.recentTransactions host lastMonth prices) <->
         ~ In t (windowTransactions host startDate prices)))
  /\ (forall offset,
        fixedOffset host offset -> inDateRange now ->
        exists L, (28 <= L <= 31)%Z
                  /\ lastMonth = Some (now - L * JsDate.msPerDay)%Z)
  /\ (forall offset,
        fixedOffset host offset -> inDateRange now -> (0 <= days <= 366)%Z ->
        startDate = Some (now - days * JsDate.msPerDay)%Z).
Proof.
  cbv zeta.
  set (now := clock w (clockReads w)).
  set (lastMonth := JsDate.setMonth _ _ _).
  set (startDate := JsDate.setDate _ _ _).
  assert (HL : In t (Legacy.recentTransactions host lastMonth prices) <->
               In t prices /\ exists d c,
                 newDate host (t_date t) = Some d /\ lastMonth = Some c /\ (d <= c)%Z).
  { unfold Legacy.recentTransactions. rewrite filter_In, dateLe_spec. reflexivity. }
  assert (HW : In t (windowTransactions host startDate prices) <->
               In t prices /\ exists d c,
                 newDate host (t_date t) = Some d /\ startDate = Some c /\ (c <= d)%Z).
  { unfold windowTransactions. rewrite filter_In, dateGe_spec. reflexivity. }
  split; [|split; [reflexivity | split; [exact HL | split; [exact HW|split; [|split]]]]].
  - intros Hvalid. unfold Legacy.calculateConfidence, bind, newDateNow.
    fold now. fold lastMonth. destruct lastMonth; [reflexivity | contradiction].
  - intros d c Hin Hd Hl Hs Hne. rewrite HL, HW. split.
    + intros (_ & d1 & c1 & E1 & E2 & Hle) (_ & d2 & c2 & E3 & E4 & Hge).
      rewrite Hd in E1, E3. rewrite Hl in E2. rewrite Hs in E4.
      injection E1 as <-. injection E2 as <-. injection E3 as <-. injection E4 as <-.
      lia.
    + intros Hnot. split; [exact Hin|]. exists d, c. repeat split; auto.
      destruct (Z.le_gt_cases d c) as [|Hgt]; [assumption|].
      exfalso. apply Hnot. split; [exact Hin|]. exists d, c. repeat split; auto. lia.
  - intros offset Hfix Hrange.
    destruct (setMonth_fixed_offset host offset now Hfix) as [L [HL' E]].
    exists L. split; [exact HL'|]. unfold lastMonth. rewrite E.
    apply TimeClip_in_range; [exact Hrange | lia].
  - intros offset Hfix Hrange Hdays. unfold startDate.
    rewrite (setDate_fixed_offset host offset now days Hfix).
    apply TimeClip_in_range; assumption.
Qed.

(** On the sample host, on 2024-05-31, one month back and thirty days back
    are the same instant, 2024-05-01: the month window keeps the two sales of
    the scenario and the single-window revision keeps neither. *)
Lemma filters_compare_in_opposite_directions_witness :
  let prices := [mkTransaction (JStr "100.00") (JStr "2024-05-11") "PSA" "10.0";
                 mkTransaction (JStr "105.00") (JStr "2024-05-21") "PSA" "10.0"] in
  let cutoff := JsDate.setMonth (LocalTZA SampleHost.host) SampleHost.today
                  (JsDate.getMonth (LocalTZA SampleHost.host) SampleHost.today - 1) in
  cutoff = Some 1714521600000%Z
  /\ JsDate.setDate (LocalTZA SampleHost.host) SampleHost.today
       (JsDate.getDate (LocalTZA SampleHost.host) SampleHost.today - 30) = cutoff
  /\ windowTransactions SampleHost.host cutoff prices = prices
  /\ Legacy.recentTransactions SampleHost.host cutoff prices = []
  /\ forall t, In t prices ->
       (In t (Legacy.recentTransactions SampleHost.host cutoff prices) <->
        ~ In t (windowTransactions SampleHost.host cutoff prices)).
Proof.
  cbv zeta. split; [vm_compute; reflexivity|]. split; [vm_compute; reflexivity|].
  split; [vm_compute; reflexivity|]. split; [vm_compute; reflexivity|].
  intros t Hin.
  destruct (filters_compare_in_opposite_directions SampleHost.host
              [mkTransaction (JStr "100.00") (JStr "2024-05-11") "PSA" "10.0";
               mkTransaction (JStr "105.00") (JStr "2024-05-21") "PSA" "10.0"]
              SampleHost.scenario 30 t) as (_ & _ & _ & _ & H & _).
  destruct Hin as [<-|[<-|[]]].
  - apply (H 1715385600000%Z 1714521600000%Z);
      [now left | vm_compute; reflexivity | vm_compute; reflexivity
       | vm_compute; reflexivity | discriminate].
  - apply (H 1716249600000%Z 1714521600000%Z);
      [now right; left | vm_compute; reflexivity | vm_compute; reflexivity
       | vm_compute; reflexivity | discriminate].
Defined.

(** The cutoff of the single-window revision is not thirty days back.  On
    the sample host, with the clock at 2024-03-15T12:00:00Z, it is
    2024-02-15T12:00:00Z, twenty-nine days back; a sale of 2024-02-15 is
    younger than thirty days and is kept all the same, so that the list made
    of it is rated [High], where a filter at thirty days would keep nothing
    and leave [Low]. *)
Lemma legacy_lookback_is_not_thirty_days :
  let host := SampleHost.host in
  let w := SampleWorlds.midMarch in
  let now := clock w (clockReads w) in
  let prices := [SampleWorlds.februarySale] in
  let lastMonth := JsDate.setMonth (LocalTZA host) now
                     (JsDate.getMonth (LocalTZA host) now - 1) in
  let thirtyDaysAgo := (now - 30 * JsDate.msPerDay)%Z in
  now = 1710504000000%Z
  /\ lastMonth = Some (now - 29 * JsDate.msPerDay)%Z
  /\ newDate host (t_date SampleWorlds.februarySale) = Some 1707955200000%Z
  /\ (thirtyDaysAgo < 1707955200000)%Z
  /\ Legacy.recentTransactions host lastMonth prices = prices
  /\ Legacy.calculateConfidence host prices w = (Ok High, ticked w 1)
  /\ Legacy.recentTransactions host (Some thirtyDaysAgo) prices = []
  /\ ~ (forall t, In t (Legacy.recentTransactions host lastMonth prices) ->
          exists d, newDate host (t_date t) = Some d /\ (d <= thirtyDaysAgo)%Z).
Proof.
  cbv zeta. split; [reflexivity|]. split; [vm_compute; reflexivity|].
  split; [vm_compute; reflexivity|]. split; [vm_compute; reflexivity|].
  split; [vm_compute; reflexivity|]. split; [vm_compute; reflexivity|].
  split; [vm_compute; reflexivity|].
  intros H.
  destruct (H SampleWorlds.februarySale) as (d & Hd & Hle).
  - vm_compute. now left.
  - vm_compute in Hd. injection Hd as <-. vm_compute in Hle. now apply Hle.
Qed.

(** One month back is a calendar month, not a number of days: from
    2024-03-15T12:00Z it is 2024-02-15T12:00Z, 29 days earlier; from
    2024-05-31T00:00Z it is 2024-05-01T00:00Z (April has no 31st), 30 days
    earlier; from 2024-01-31T00:00Z it is 2023-12-31T00:00Z, 31 days earlier.
    [setDate] moves by whole days. *)
Lemma setMonth_examples :
  let tz := LocalTZA SampleHost.host in
  JsDate.setMonth tz 1710504000000 (JsDate.getMonth tz 1710504000000 - 1)
    = Some (1710504000000 - 29 * JsDate.msPerDay)%Z
  /\ JsDate.setMonth tz 1717113600000 (JsDate.getMonth tz 1717113600000 - 1)
     = Some (1717113600000 - 30 * JsDate.msPerDay)%Z
  /\ JsDate.setMonth tz 1706659200000 (JsDate.getMonth tz 1706659200000 - 1)
     = Some (1706659200000 - 31 * JsDate.msPerDay)%Z
  /\ JsDate.setDate tz 1710504000000 (JsDate.getDate tz 1710504000000 - 30)
     = Some (1710504000000 - 30 * JsDate.msPerDay)%Z.
Proof. cbv zeta. repeat split; vm_compute; reflexivity. Qed.

(** [YearFromTime] is the year the day falls in. *)
Lemma YearFromTime_spec t :
  (JsDate.DayFromYear (JsDate.YearFromTime t) <= JsDate.Day t
   < JsDate.DayFromYear (JsDate.YearFromTime t + 1))%Z.
Proof.
  unfold JsDate.YearFromTime, JsDate.DayFromYear. cbv zeta.
  generalize (JsDate.Day t). intros d.
  repeat match goal with |- context [(?a <=? ?b)%Z] => destruct (Z.leb_spec a b) end;
  Z.div_mod_to_equations; lia.
Qed.

(** ** The end-to-end scenario of the specification *)

(** A request for slab 12345678 without filters is answered with the two
    sales, tagged PSA 10.0, and a month window rated [High]; the five
    sub-queries of the matrix follow the certificate lookup. *)
Lemma scenario_end_to_end :
  exists confidence month w',
    handler SampleHost.host (mkQuery (Some "12345678") None None) SampleHost.scenario
      = (Ok (ResJson
               [mkTransaction (JStr "100.00") (JStr "2024-05-11") "PSA" "10.0";
                mkTransaction (JStr "105.00") (JStr "2024-05-21") "PSA" "10.0"]
               confidence), w')
    /\ lookup "month" confidence = Some month
    /\ stats month = mkStats 102.5 2.5 High
    /\ sent w' = CertRequest "12345678" :: fullMatrix (JStr "A1").
Proof.
  eexists. eexists. eexists.
  split; [vm_compute; reflexivity|].
  split; [vm_compute; reflexivity|].
  split; vm_compute; reflexivity.
Qed.

(** Without a slab number the handler answers 400 and sends nothing. *)
Lemma handler_missing_slabNumber host slabNumber gc gn w :
  truthy slabNumber = false ->
  handler host (mkQuery slabNumber gc gn) w
    = (Ok (ResSend 400 "Please provide a slab number"), w).
Proof.
  intros H. unfold handler. cbn [q_slabNumber].
  destruct slabNumber as [s|]; [rewrite H|]; reflexivity.
Qed.

(** * More of the code *)

(** ** The aggregator as one pass over its plan *)

Lemma gather_app up id : forall a history b,
  gather up id history (a ++ b) =
  match gather up id history a with
  | Throw e => Throw e
  | Ok x =>
      match gather up id (history ++ map (pairRequest id) a) b with
      | Throw e => Throw e
      | Ok y => Ok (x ++ y)
      end
  end.
Proof.
  induction a as [|cg a IH]; intros history b; cbn [gather app map].
  - rewrite app_nil_r. now destruct (gather up id history b).
  - destruct (decodeTransactions _ _ _) as [answer|e]; [|reflexivity].
    rewrite IH, <- app_assoc. cbn [app].
    destruct (gather up id (history ++ [pairRequest id cg]) a) as [x|e]; [|reflexivity].
    destruct (gather up id _ b) as [y|e]; [|reflexivity].
    now rewrite app_assoc.
Qed.

Lemma gatherCount_app up id : forall a history b,
  gatherCount up id history (a ++ b) =
  match gather up id history a with
  | Throw _ => gatherCount up id history a
  | Ok _ => (List.length a + gatherCount up id (history ++ map (pairRequest id) a) b)%nat
  end.
Proof.
  induction a as [|cg a IH]; intros history b; cbn [gather gatherCount app map List.length].
  - now rewrite app_nil_r.
  - destruct (decodeTransactions _ _ _) as [answer|e]; [|reflexivity].
    rewrite IH, <- app_assoc. cbn [app].
    destruct (gather up id (history ++ [pairRequest id cg]) a) as [x|e]; reflexivity.
Qed.

Lemma gatherCount_le up id : forall pairs history,
  (gatherCount up id history pairs <= List.length pairs)%nat.
Proof.
  induction pairs as [|cg pairs IH]; intros history; cbn; [lia|].
  destruct (decodeTransactions _ _ _); [|lia]. specialize (IH (history ++ [pairRequest id cg])). lia.
Qed.

Lemma gatherCount_ok up id : forall pairs history ts,
  gather up id history pairs = Ok ts ->
  gatherCount up id history pairs = List.length pairs.
Proof.
  induction pairs as [|cg pairs IH]; intros history ts; cbn; [reflexivity|].
  destruct (decodeTransactions _ _ _); [|discriminate].
  destruct (gather up id (history ++ [pairRequest id cg]) pairs) eqn:E; [|discriminate].
  intros _. now rewrite (IH _ _ E).
Qed.

Lemma passOver_nil id all w : passOver id [] all w = (Ok all, w).
Proof. unfold passOver. cbn. now rewrite app_nil_r, logged_nil. Qed.

Lemma passOver_cons id cg rest all w :
  passOver id (cg :: rest) all w =
  match decodeTransactions (upstream w (sent w) (pairRequest id cg)) (fst cg) (snd cg) with
  | Ok answer => passOver id rest (all ++ answer) (logged w [pairRequest id cg])
  | Throw e => (Throw e, logged w [pairRequest id cg])
  end.
Proof.
  unfold passOver. cbn [gather gatherCount map].
  destruct (decodeTransactions _ _ _) as [answer|e]; [|reflexivity].
  cbn [firstn logged upstream sent].
  destruct (gather _ id _ rest) as [ts|e];
    rewrite ?app_assoc; unfold logged; cbn [sent upstream clock clockReads];
    now rewrite <- !app_assoc.
Qed.

Lemma passOver_app id a : forall b all w,
  passOver id (a ++ b) all w =
  match passOver id a all w with
  | (Ok ts, w') => passOver id b ts w'
  | (Throw e, w') => (Throw e, w')
  end.
Proof.
  induction a as [|cg a IH]; intros b all w.
  - now rewrite passOver_nil.
  - cbn [app]. rewrite !passOver_cons.
    destruct (decodeTransactions _ _ _) as [answer|e]; [apply IH | reflexivity].
Qed.

(** The inner loop is a pass over its grades when no early exit is possible,
    and also when there is a single grade. *)
Lemma gradeLoop_pass id gc gn company grades :
  truthy gc && truthy gn = false \/ (List.length grades <= 1)%nat ->
  forall all w,
    gradeLoop id gc gn company grades all w
      = passOver id (map (fun grade => (company, grade)) grades) all w.
Proof.
  induction grades as [|grade rest IH]; intros Hb all w.
  - now rewrite passOver_nil.
  - rewrite gradeLoop_cons. cbn [map]. rewrite passOver_cons. cbn [fst snd pairRequest].
    destruct (decodeTransactions _ company grade) as [answer|e]; [|reflexivity].
    destruct Hb as [Hb|Hb].
    + rewrite (breakEarly_off _ _ _ Hb). apply IH. now left.
    + destruct rest; [|cbn in Hb; lia]. cbn [map]. rewrite passOver_nil.
      now destruct (breakEarly _ _ _).
Qed.

Lemma companyLoop_pass id gc gn :
  forall companies,
    truthy gc && truthy gn = false \/ truthy gn = true ->
    forallb (fun company => match lookup company (gradeNumbers gn) with
                            | Some _ => true | None => false end) companies = true ->
    forall all w,
      companyLoop id gc gn companies all w
        = passOver id
            (flat_map (fun company =>
                         match lookup company (gradeNumbers gn) with
                         | Some grades => map (fun grade => (company, grade)) grades
                         | None => []
                         end) companies)
            all w.
Proof.
  induction companies as [|company rest IH]; intros Hb Hk all w.
  - now rewrite passOver_nil.
  - cbn [forallb] in Hk. apply andb_true_iff in Hk. destruct Hk as [Hc Hk].
    cbn [companyLoop flat_map].
    destruct (lookup company (gradeNumbers gn)) as [grades|] eqn:El; [|discriminate].
    unfold bind. rewrite gradeLoop_pass, passOver_app.
    + destruct (passOver id _ all w) as [[ts|e] w']; [apply IH; assumption | reflexivity].
    + destruct Hb as [Hb|Hg]; [now left | right].
      destruct gn as [g|]; [|discriminate]. unfold gradeNumbers, gradesOr in El.
      rewrite Hg in El. cbn [lookup] in El.
      destruct (String.eqb company "PSA"); [injection El as <-; cbn; lia|].
      destruct (String.eqb company "BGS"); [injection El as <-; cbn; lia | discriminate].
Qed.

Lemma forallb_same {A : Type} (f g : A -> bool) (xs : list A) :
  (forall x, f x = g x) -> forallb f xs = forallb g xs.
Proof. intros H. induction xs as [|x xs IH]; cbn; [reflexivity | now rewrite H, IH]. Qed.

Lemma lookup_gradeNumbers_keys company gn :
  match lookup company (gradeNumbers gn) with Some _ => true | None => false end
  = match lookup company (gradeNumbers None) with Some _ => true | None => false end.
Proof.
  unfold gradeNumbers. cbn [lookup].
  destruct (String.eqb company "PSA"); [reflexivity|].
  destruct (String.eqb company "BGS"); reflexivity.
Qed.

Lemma getPrices_pass id gc gn w :
  knownCompanies gc = true ->
  getPrices id gc gn w = passOver id (plannedPairs gc gn) [] w.
Proof.
  intros Hk. unfold getPrices, plannedPairs. apply companyLoop_pass.
  - destruct (truthy gc) eqn:Hgc, (truthy gn) eqn:Hgn; auto.
  - unfold knownCompanies in Hk. etransitivity; [|exact Hk]. apply forallb_same.
    intros company. apply lookup_gradeNumbers_keys.
Qed.

Lemma passOver_plan id gc gn w :
  passOver id (plannedPairs gc gn) [] w
  = (gather (upstream w) id (sent w) (plannedPairs gc gn),
     logged w (firstn (gatherCount (upstream w) id (sent w) (plannedPairs gc gn))
                      (plannedRequests id gc gn))).
Proof. unfold passOver, plannedRequests. now destruct (gather _ _ _ _). Qed.

Lemma getPrices_ok_full_plan id gc gn w ts w' :
  knownCompanies gc = true ->
  getPrices id gc gn w = (Ok ts, w') -> w' = logged w (plannedRequests id gc gn).
Proof.
  intros Hk Hok. rewrite (getPrices_pass id gc gn w Hk), passOver_plan in Hok.
  injection Hok as Hg <-. rewrite (gatherCount_ok _ _ _ _ _ Hg).
  unfold plannedRequests. now rewrite <- (length_map (pairRequest id)), firstn_all.
Qed.

(** X1: for companies that [gradeNumbers] knows, a call of [getPrices] is one
    pass over its plan: it returns the answers of the planned sub-queries put
    end to end in the order of the plan, or the first error met, and it has
    sent the planned sub-queries up to the first that failed, all of them
    when it returns.  The early exit never cuts the plan short, and a plan
    has at most five sub-queries. *)
Theorem getPrices_is_a_pass_over_its_plan id gc gn w :
  knownCompanies gc = true ->
  getPrices id gc gn w
    = (gather (upstream w) id (sent w) (plannedPairs gc gn),
       logged w (firstn (gatherCount (upstream w) id (sent w) (plannedPairs gc gn))
                        (plannedRequests id gc gn)))
  /\ (forall ts w', getPrices id gc gn w = (Ok ts, w') ->
      w' = logged w (plannedRequests id gc gn))
  /\ (List.length (plannedRequests id gc gn) <= 5)%nat.
Proof.
  intros Hk. split; [now rewrite (getPrices_pass id gc gn w Hk), passOver_plan|].
  split; [intros ts w'; now apply getPrices_ok_full_plan|].
  unfold plannedRequests, plannedPairs, gradingCompanies, gradeNumbers, gradesOr.
  rewrite length_map.
  destruct gc as [c|], gn as [g|]; cbn;
    repeat match goal with
           | |- context [if ?b then _ else _] => destruct b; cbn
           end; lia.
Qed.

Lemma mapTransactions_items company grade : forall items ts,
  mapTransactions items company grade = Ok ts ->
  forall t, In t ts ->
    t_gradingCompany t = company /\ t_gradeNumber t = grade
    /\ exists item, In item items
         /\ getProp item "price" = Ok (t_price t)
         /\ getProp item "date" = Ok (t_date t).
Proof.
  induction items as [|m rest IH]; intros ts; cbn [mapTransactions].
  - intros [= <-] t [].
  - destruct (getProp m "price") as [p|e] eqn:Ep; [|discriminate].
    destruct (getProp m "date") as [d|e] eqn:Ed; [|discriminate].
    destruct (mapTransactions rest company grade) as [ts'|e]; [|discriminate].
    intros [= <-] t [<-|Hin].
    + cbn. repeat split. exists m. cbn. auto.
    + destruct (IH ts' eq_refl t Hin) as (Hc & Hg & item & Hi & Hp & Hd).
      repeat split; auto. exists item. cbn. auto.
Qed.

Lemma decodeTransactions_items out company grade ts :
  decodeTransactions out company grade = Ok ts ->
  forall t, In t ts ->
    t_gradingCompany t = company /\ t_gradeNumber t = grade
    /\ exists st data items item,
         out = FetchResponse st (Some data)
         /\ getPath data ["data"; "asset"; "marketTransactions"] = Ok (JArr items)
         /\ In item items
         /\ getProp item "price" = Ok (t_price t)
         /\ getProp item "date" = Ok (t_date t).
Proof.
  destruct out as [|st [data|]]; cbn [decodeTransactions]; try discriminate.
  unfold marketTransactionsOf.
  destruct (getPath data ["data"; "asset"; "marketTransactions"]) as [v|e] eqn:Ep;
    [|discriminate].
  destruct v; try discriminate.
  intros Hm t Hin.
  destruct (mapTransactions_items company grade items ts Hm t Hin)
    as (Hc & Hg & item & Hi & Hp & Hd).
  repeat split; auto. exists st, data, items, item. auto.
Qed.

Lemma gather_items up id : forall pairs history ts,
  gather up id history pairs = Ok ts ->
  forall t, In t ts ->
    In (t_gradingCompany t, t_gradeNumber t) pairs /\ fetchedFrom up id t.
Proof.
  induction pairs as [|[company grade] pairs IH]; intros history ts; cbn [gather fst snd].
  - intros [= <-] t [].
  - destruct (decodeTransactions _ company grade) as [answer|e] eqn:Ea; [|discriminate].
    destruct (gather up id _ pairs) as [others|e] eqn:Eo; [|discriminate].
    intros [= <-] t Hin. apply in_app_or in Hin. destruct Hin as [Hin|Hin].
    + destruct (decodeTransactions_items _ _ _ _ Ea t Hin)
        as (Hc & Hg & st & data & items & item & Hup & Hp & Hi & Hpr & Hd).
      split; [left; now rewrite Hc, Hg|].
      exists history, st, data, items, item. rewrite Hc, Hg. auto.
    + destruct (IH _ _ Eo t Hin) as [Hp Hf]. split; [now right | exact Hf].
Qed.

Lemma getPrices_unknown_throws id c gn w :
  truthy (Some c) = true ->
  lookup c (gradeNumbers None) = None ->
  getPrices id (Some c) gn w = (Throw TypeError, w).
Proof.
  intros Hc Hl. unfold getPrices, gradingCompanies. rewrite Hc. cbn [companyLoop].
  pose proof (lookup_gradeNumbers_keys c gn) as Hkeys. rewrite Hl in Hkeys.
  destruct (lookup c (gradeNumbers gn)); [discriminate | reflexivity].
Qed.

(** X2: a grading company that is not a key of [gradeNumbers] (anything but
    PSA and BGS) makes [getPrices] throw before any sub-query is sent; the
    handler then answers 500 having sent the certificate lookup only,
    whatever that lookup returned. *)
Theorem getPrices_unknown_company id c gn w :
  truthy (Some c) = true ->
  lookup c (gradeNumbers None) = None ->
  getPrices id (Some c) gn w = (Throw TypeError, w)
  /\ forall host slabNumber,
       truthy (Some slabNumber) = true ->
       handler host (mkQuery (Some slabNumber) (Some c) gn) w
         = (Ok (ResSend 500 "Error fetching data"), logged w [CertRequest slabNumber]).
Proof.
  intros Hc Hl. split; [now apply getPrices_unknown_throws|].
  intros host slabNumber Hs.
  rewrite (handler_run host slabNumber (Some c) gn w Hs), getInternalId_run.
  destruct (decodeId _) as [id'|e]; [|reflexivity].
  now rewrite (getPrices_unknown_throws id' c gn _ Hc Hl).
Qed.

Lemma getPrices_ok_known id gc gn w ts w' :
  getPrices id gc gn w = (Ok ts, w') -> knownCompanies gc = true.
Proof.
  intros Hok. unfold knownCompanies, gradingCompanies.
  destruct gc as [c|]; [|reflexivity].
  destruct (truthy (Some c)) eqn:Hc; [|reflexivity].
  cbn [forallb]. rewrite andb_true_r.
  destruct (lookup c (gradeNumbers None)) eqn:El; [reflexivity|].
  rewrite (getPrices_unknown_throws id c gn w Hc El) in Hok. discriminate.
Qed.

Lemma getPrices_items id gc gn w ts w' t :
  getPrices id gc gn w = (Ok ts, w') ->
  In t ts ->
  In (t_gradingCompany t, t_gradeNumber t) (plannedPairs gc gn)
  /\ fetchedFrom (upstream w) id t.
Proof.
  intros Hok Hin.
  rewrite (getPrices_pass id gc gn w (getPrices_ok_known _ _ _ _ _ _ Hok)),
    passOver_plan in Hok.
  injection Hok as Eg _.
  exact (gather_items _ _ _ _ _ Eg t Hin).
Qed.

Lemma getPrices_tags id gc gn w ts w' t :
  getPrices id gc gn w = (Ok ts, w') ->
  In t ts ->
  (forall c, gc = Some c -> truthy gc = true -> t_gradingCompany t = c)
  /\ (forall g, gn = Some g -> truthy gn = true -> t_gradeNumber t = g).
Proof.
  intros Hok Hin. destruct (getPrices_items _ _ _ _ _ _ t Hok Hin) as [Hp _]. split.
  - intros c -> Hc. unfold plannedPairs, gradingCompanies in Hp. rewrite Hc in Hp.
    cbn [flat_map] in Hp. rewrite app_nil_r in Hp.
    destruct (lookup c (gradeNumbers gn)); [|contradiction].
    apply in_map_iff in Hp. destruct Hp as (grade & [= -> _] & _). reflexivity.
  - intros g -> Hg. unfold plannedPairs in Hp. apply in_flat_map in Hp.
    destruct Hp as (company & _ & Hp).
    unfold gradeNumbers, gradesOr in Hp. rewrite Hg in Hp. cbn [lookup] in Hp.
    destruct (String.eqb company "PSA");
      [destruct Hp as [[= _ ->]|[]]; reflexivity|].
    destruct (String.eqb company "BGS");
      [destruct Hp as [[= _ ->]|[]]; reflexivity | contradiction].
Qed.

(** X3: every transaction [getPrices] returns carries the tag of a planned
    pair, and its price and date are those of an element of an answer to the
    sub-query of that pair; with a company given every tag has that company,
    and with a grade given every tag has that grade. *)
Theorem getPrices_returns_what_was_fetched id gc gn w ts w' t :
  getPrices id gc gn w = (Ok ts, w') ->
  In t ts ->
  In (t_gradingCompany t, t_gradeNumber t) (plannedPairs gc gn)
  /\ fetchedFrom (upstream w) id t
  /\ (forall c, gc = Some c -> truthy gc = true -> t_gradingCompany t = c)
  /\ (forall g, gn = Some g -> truthy gn = true -> t_gradeNumber t = g).
Proof.
  intros Hok Hin.
  destruct (getPrices_items _ _ _ _ _ _ t Hok Hin) as [Hp Hf].
  destruct (getPrices_tags _ _ _ _ _ _ t Hok Hin) as [Hc Hg].
  repeat split; assumption.
Qed.

(** A call of [getPrices] changes the world by its log only. *)
Lemma getPrices_logs id gc gn w :
  exists k, snd (getPrices id gc gn w) = logged w (firstn k (plannedRequests id gc gn)).
Proof.
  destruct (knownCompanies gc) eqn:Hk.
  - rewrite (getPrices_pass id gc gn w Hk), passOver_plan. eexists. reflexivity.
  - unfold knownCompanies, gradingCompanies in Hk.
    destruct gc as [c|]; [|discriminate].
    destruct (truthy (Some c)) eqn:Hc; [|discriminate].
    cbn [forallb] in Hk. rewrite andb_true_r in Hk.
    destruct (lookup c (gradeNumbers None)) eqn:El; [discriminate|].
    rewrite (getPrices_unknown_throws id c gn w Hc El). exists 0%nat. cbn. now rewrite logged_nil.
Qed.




(** X5: with a slab number, the handler answers 500 exactly when one of its
    calls throws: the resolver, the aggregation, or the unfiltered
    aggregation made after an empty first result.  The estimator is no such
    call: on the prices and dates the host's built-ins return on (see
    [Host]) it does not throw. *)
Theorem handler_answers_500_exactly_on_failure host slabNumber gc gn w :
  truthy (Some slabNumber) = true ->
  let w1 := logged w [CertRequest slabNumber] in
  fst (handler host (mkQuery (Some slabNumber) gc gn) w)
    = Ok (ResSend 500 "Error fetching data")
  <->
  (exists e, fst (getInternalId slabNumber w) = Throw e)
  \/ (exists id, fst (getInternalId slabNumber w) = Ok id
        /\ ((exists e, fst (getPrices id gc gn w1) = Throw e)
            \/ (exists e w2, getPrices id gc gn w1 = (Ok [], w2)
                  /\ fst (getPrices id None None w2) = Throw e))).
Proof.
  intros Hs. cbv zeta.
  rewrite (handler_run host slabNumber gc gn w Hs), getInternalId_run. cbn [fst].
  destruct (decodeId _) as [id|e]; cbn [fst].
  2:{ split; [intros _; left; eauto | reflexivity]. }
  destruct (getPrices id gc gn _) as [[prices|e] w2] eqn:E1; cbn [fst].
  2:{ split; [|reflexivity]. intros _. right. exists id. split; [reflexivity|].
      left. exists e. now rewrite E1. }
  destruct prices as [|t prices]; cbn [List.length Nat.eqb].
  - destruct (getPrices id None None w2) as [[prices'|e] w3] eqn:E2; cbn [fst].
    + split; [discriminate|].
      intros [[e He]|(id' & [= <-] & [[e He]|(e & w2' & Hfirst & He)])];
        try discriminate.
      * rewrite E1 in He. discriminate.
      * rewrite E1 in Hfirst. injection Hfirst as <-. rewrite E2 in He. discriminate.
    + split; [|reflexivity]. intros _. right. exists id. split; [reflexivity|].
      right. exists e, w2. split; [exact E1|]. now rewrite E2.
  - split; [discriminate|].
    intros [[e He]|(id' & [= <-] & [[e He]|(e & w2' & Hfirst & He)])];
      try discriminate.
    + rewrite E1 in He. discriminate.
    + rewrite E1 in Hfirst. discriminate.
Qed.

(** X6: a first aggregation that finds something is answered as it is: no
    second aggregation is made, the prices are those found, and with both
    filters given every price carries the company and grade asked for. *)
Theorem handler_keeps_a_non_empty_result host slabNumber gc gn w id w1 prices w2 :
  truthy (Some slabNumber) = true ->
  getInternalId slabNumber w = (Ok id, w1) ->
  getPrices id gc gn w1 = (Ok prices, w2) ->
  prices <> [] ->
  exists confidence,
    handler host (mkQuery (Some slabNumber) gc gn) w
      = (Ok (ResJson prices confidence), ticked w2 4)
    /\ calculateConfidence host prices w2 = (Ok confidence, ticked w2 4)
    /\ sent w2 = sent w ++ CertRequest slabNumber :: plannedRequests id gc gn
    /\ (forall c g t, gc = Some c -> gn = Some g ->
          truthy gc = true -> truthy gn = true -> In t prices ->
          t_gradingCompany t = c /\ t_gradeNumber t = g).
Proof.
  intros Hs Hid Hp Hne.
  rewrite (handler_run host slabNumber gc gn w Hs), Hid, Hp.
  destruct prices as [|t0 prices]; [contradiction|]. cbn [List.length Nat.eqb].
  eexists. split; [reflexivity|]. split; [apply calculateConfidence_run|]. split.
  - rewrite getInternalId_run in Hid. injection Hid as _ <-.
    rewrite (getPrices_ok_full_plan _ _ _ _ _ _ (getPrices_ok_known _ _ _ _ _ _ Hp) Hp).
    cbn [sent logged]. now rewrite <- app_assoc.
  - intros c g t Hc Hg Htc Htg Hin.
    destruct (getPrices_tags id gc gn w1 _ w2 t Hp Hin) as (Hcomp & Hgrade).
    split; [now apply Hcomp | now apply Hgrade].
Qed.

(** ** The windows on a host at a fixed offset *)

(** X7: on a host whose time zone is at a fixed offset from UTC, a window of
    [days] days returns the price points of exactly the transactions whose
    date is valid and not older than [days] times 24 hours at the moment the
    clock is read, the limit included, in the order of [prices]; the host's
    offset plays no part. *)
Theorem filterPrices_keeps_the_trailing_days host offset prices days w :
  fixedOffset host offset ->
  inDateRange (clock w (clockReads w)) -> 0 <= days <= 366 ->
  let now := clock w (clockReads w) in
  let kept :=
    filter (fun transaction =>
              match newDate host (t_date transaction) with
              | Some d => now - days * JsDate.msPerDay <=? d
              | None => false
              end) prices in
  let toPoint := fun transaction =>
    mkPricePoint (parseFloat host (t_price transaction)) (t_date transaction) in
  filterPrices host prices days w = (Ok (map toPoint kept), ticked w 1)
  /\ (forall t, In t kept <->
        In t prices /\ exists d, newDate host (t_date t) = Some d
                                 /\ now - days * JsDate.msPerDay <= d)
  /\ (forall p, In p (map toPoint kept) <->
        exists t, In t prices /\ p = toPoint t
                  /\ exists d, newDate host (t_date t) = Some d
                               /\ now - days * JsDate.msPerDay <= d).
Proof.
  intros Hfix Hrange Hdays. cbv zeta.
  set (now := clock w (clockReads w)).
  set (pred := fun transaction : Transaction =>
                 match newDate host (t_date transaction) with
                 | Some d => now - days * JsDate.msPerDay <=? d
                 | None => false
                 end).
  assert (Hkept : forall t, In t (filter pred prices) <->
            In t prices /\ exists d, newDate host (t_date t) = Some d
                                     /\ now - days * JsDate.msPerDay <= d).
  { intros t. rewrite filter_In. unfold pred. split.
    - intros [Hin Hp]. split; [exact Hin|].
      destruct (newDate host (t_date t)) as [d|]; [|discriminate].
      exists d. split; [reflexivity | now apply Z.leb_le].
    - intros (Hin & d & Hd & Hle). split; [exact Hin|].
      rewrite Hd. now apply Z.leb_le. }
  split; [|split; [exact Hkept|]].
  - unfold filterPrices, bind, newDateNow, ret. fold now.
    rewrite (setDate_fixed_offset host offset now days Hfix),
      (TimeClip_in_range now days Hrange Hdays).
    unfold windowTransactions, JsDate.dateGe. reflexivity.
  - intros p. rewrite in_map_iff. split.
    + intros (t & <- & Hin). apply Hkept in Hin. destruct Hin as [Hin Hd].
      exists t. repeat split; assumption.
    + intros (t & Hin & -> & Hd). exists t. split; [reflexivity|].
      apply Hkept. split; assumption.
Qed.

Lemma windowTransactions_widen host a b prices :
  a <= b ->
  incl (windowTransactions host (Some b) prices) (windowTransactions host (Some a) prices).
Proof.
  intros Hab t. unfold windowTransactions. rewrite !filter_In, !dateGe_spec.
  intros (Hin & d & c & Hd & [= <-] & Hle). split; [exact Hin|].
  exists d, a. repeat split; auto. lia.
Qed.

Lemma windowAt_fixed_offset host offset prices now days :
  fixedOffset host offset -> inDateRange now -> 0 <= days <= 366 ->
  recentPrices (windowAt host prices now days)
  = map (fun transaction =>
           mkPricePoint (parseFloat host (t_price transaction)) (t_date transaction))
        (windowTransactions host (Some (now - days * JsDate.msPerDay)) prices).
Proof.
  intros Hfix Hrange Hdays. unfold windowAt. cbv zeta. cbn [recentPrices].
  now rewrite (setDate_fixed_offset host offset _ days Hfix),
    (TimeClip_in_range _ _ Hrange Hdays).
Qed.

(** X8: on such a host, when the clock does not go back between the four
    readings, the windows are nested: what the week keeps the month keeps,
    what the month keeps the quarter keeps, and what the quarter keeps the
    year keeps. *)
Theorem windows_are_nested host offset prices w :
  fixedOffset host offset ->
  (forall k, (k < 4)%nat -> inDateRange (clock w (k + clockReads w)%nat)) ->
  (forall k, (k < 3)%nat ->
     clock w (k + clockReads w)%nat <= clock w (S k + clockReads w)%nat) ->
  exists year quarter month week,
    calculateConfidence host prices w
      = (Ok [("year", year); ("quarter", quarter); ("month", month); ("week", week)],
         ticked w 4)
    /\ incl (recentPrices week) (recentPrices month)
    /\ incl (recentPrices month) (recentPrices quarter)
    /\ incl (recentPrices quarter) (recentPrices year).
Proof.
  intros Hfix Hrange Hmono.
  rewrite calculateConfidence_run. unfold confidenceAt.
  eexists. eexists. eexists. eexists. split; [reflexivity|].
  pose proof (Hrange 0%nat ltac:(lia)) as R0. pose proof (Hrange 1%nat ltac:(lia)) as R1.
  pose proof (Hrange 2%nat ltac:(lia)) as R2. pose proof (Hrange 3%nat ltac:(lia)) as R3.
  pose proof (Hmono 0%nat ltac:(lia)) as M0. pose proof (Hmono 1%nat ltac:(lia)) as M1.
  pose proof (Hmono 2%nat ltac:(lia)) as M2.
  rewrite (windowAt_fixed_offset host offset prices _ 365 Hfix R0) by lia.
  rewrite (windowAt_fixed_offset host offset prices _ 90 Hfix R1) by lia.
  rewrite (windowAt_fixed_offset host offset prices _ 30 Hfix R2) by lia.
  rewrite (windowAt_fixed_offset host offset prices _ 7 Hfix R3) by lia.
  unfold JsDate.msPerDay.
  repeat split; apply incl_map; apply windowTransactions_widen; lia.
Qed.

(** ** The single-window revision on a host at a fixed offset *)

Lemma Legacy_calculateConfidence_run host prices w c :
  JsDate.setMonth (LocalTZA host) (clock w (clockReads w))
    (JsDate.getMonth (LocalTZA host) (clock w (clockReads w)) - 1) = Some c ->
  Legacy.calculateConfidence host prices w
  = (Ok (Legacy.confidenceOf
           (map (fun transaction => parseFloat host (t_price transaction))
                (Legacy.recentTransactions host (Some c) prices))),
     ticked w 1).
Proof.
  intros Hc. unfold Legacy.calculateConfidence, bind, newDateNow. now rewrite Hc.
Qed.

(** X9: on such a host the cutoff of the single-window revision lies 28 to
    31 days before the clock, and a list whose transactions are all dated
    within the last 28 days (or carry no valid date) is rated [Low] whatever
    its prices: the filter leaves nothing to rate. *)
Theorem legacy_ignores_the_last_four_weeks host offset prices w :
  fixedOffset host offset ->
  inDateRange (clock w (clockReads w)) ->
  let now := clock w (clockReads w) in
  (forall t d, In t prices -> newDate host (t_date t) = Some d ->
               now - 28 * JsDate.msPerDay < d) ->
  (exists L, 28 <= L <= 31
     /\ JsDate.setMonth (LocalTZA host) now (JsDate.getMonth (LocalTZA host) now - 1)
        = Some (now - L * JsDate.msPerDay))
  /\ Legacy.calculateConfidence host prices w = (Ok Low, ticked w 1).
Proof.
  intros Hfix Hrange. cbv zeta. intros Hrecent.
  destruct (setMonth_fixed_offset host offset (clock w (clockReads w)) Hfix)
    as [L [HL E]].
  rewrite (TimeClip_in_range _ L Hrange) in E by lia.
  split; [exists L; split; [exact HL | exact E]|].
  rewrite (Legacy_calculateConfidence_run host prices w _ E).
  assert (Hnone : Legacy.recentTransactions host
                    (Some (clock w (clockReads w) - L * JsDate.msPerDay)) prices = []).
  { unfold Legacy.recentTransactions.
    destruct (filter _ prices) as [|t ts] eqn:Ef; [reflexivity|].
    assert (Hin : In t (filter
              (fun transaction =>
                 JsDate.dateLe (newDate host (t_date transaction))
                   (Some (clock w (clockReads w) - L * JsDate.msPerDay))) prices))
      by (rewrite Ef; now left).
    apply filter_In in Hin. destruct Hin as [Hin Hle].
    apply dateLe_spec in Hle. destruct Hle as (d & c & Hd & [= <-] & Hle).
    specialize (Hrecent t d Hin Hd). unfold JsDate.msPerDay in *. lia. }
  now rewrite Hnone.
Qed.

Local Open Scope float_scope.

(** ** Prices that are not numbers *)

Lemma Prim2SF_nan : Prim2SF nan = S754_nan.
Proof. reflexivity. Qed.

Lemma add_nan_r x : x + nan = nan.
Proof.
  apply Prim2SF_inj. rewrite add_spec, Prim2SF_nan.
  unfold SF64add, SFadd. now destruct (Prim2SF x).
Qed.

Lemma add_nan_l x : nan + x = nan.
Proof.
  apply Prim2SF_inj. rewrite add_spec, Prim2SF_nan. reflexivity.
Qed.

Lemma sub_nan_r x : x - nan = nan.
Proof.
  apply Prim2SF_inj. rewrite sub_spec, Prim2SF_nan.
  unfold SF64sub, SFsub. now destruct (Prim2SF x).
Qed.

Lemma div_nan_l x : nan / x = nan.
Proof.
  apply Prim2SF_inj. rewrite div_spec, Prim2SF_nan. reflexivity.
Qed.

Lemma ltb_nan_l x : (nan <? x) = false.
Proof. rewrite ltb_spec, Prim2SF_nan. reflexivity. Qed.

Lemma sumOf_from_nan {A : Type} (f : A -> float) (xs : list A) :
  fold_left (fun acc x => acc + f x) xs nan = nan.
Proof. induction xs as [|x xs IH]; cbn; [reflexivity | now rewrite add_nan_l]. Qed.

Lemma sumOf_with_nan {A : Type} (f : A -> float) (xs : list A) :
  (exists x, In x xs /\ f x = nan) -> sumOf f xs = nan.
Proof.
  unfold sumOf. generalize 0. induction xs as [|x xs IH]; intros acc [y [Hin Hy]].
  - destruct Hin.
  - cbn. destruct Hin as [->|Hin].
    + rewrite Hy, add_nan_r. apply sumOf_from_nan.
    + apply IH. now exists y.
Qed.

Lemma sumOf_all_nan {A : Type} (f : A -> float) (xs : list A) :
  xs <> [] -> (forall x, f x = nan) -> sumOf f xs = nan.
Proof.
  intros Hne Hall. apply sumOf_with_nan. destruct xs as [|x xs]; [contradiction|].
  exists x. split; [now left | apply Hall].
Qed.

(** X10: a price that is not a number is not left out of a window: one such
    price makes the window's average price and average deviation [NaN] and
    its level [Low], whatever the other prices are; so does it in the
    single-window revision. *)
Theorem one_bad_price_spoils_the_window recentPrices (legacyPrices : list float) :
  (exists p, In p recentPrices /\ p_price p = nan) ->
  In nan legacyPrices ->
  calculateAverageAndDeviation recentPrices = mkStats nan nan Low
  /\ Legacy.confidenceOf legacyPrices = Low.
Proof.
  intros Hbad Hbad'. split.
  - unfold calculateAverageAndDeviation.
    destruct recentPrices as [|p0 ps] eqn:E; [destruct Hbad as [p [[] _]]|].
    cbn [List.length Nat.eqb]. rewrite <- E in *. cbv zeta.
    rewrite (sumOf_with_nan p_price recentPrices Hbad), div_nan_l.
    rewrite (sumOf_all_nan (fun transaction => abs (p_price transaction - nan)) recentPrices).
    + rewrite div_nan_l. unfold levelOf. now rewrite !ltb_nan_l.
    + rewrite E. discriminate.
    + intros x. now rewrite sub_nan_r.
  - unfold Legacy.confidenceOf.
    destruct legacyPrices as [|p0 ps] eqn:E; [destruct Hbad'|].
    cbn [List.length Nat.eqb]. rewrite <- E in *. cbv zeta.
    rewrite (sumOf_with_nan (fun price => price) legacyPrices) by (exists nan; auto).
    rewrite div_nan_l.
    rewrite (sumOf_all_nan (fun price => abs (price - nan)) legacyPrices).
    + rewrite div_nan_l. unfold levelOf. now rewrite !ltb_nan_l.
    + rewrite E. discriminate.
    + intros x. now rewrite sub_nan_r.
Qed.

Lemma one_bad_price_spoils_the_window_witness :
  (exists p, In p [mkPricePoint 100 JNull; mkPricePoint nan JNull] /\ p_price p = nan)
  /\ In nan [100; nan]
  /\ calculateAverageAndDeviation [mkPricePoint 100 JNull; mkPricePoint nan JNull]
     = mkStats nan nan Low
  /\ Legacy.confidenceOf [100; nan] = Low.
Proof.
  split; [exists (mkPricePoint nan JNull); split; [right; now left | reflexivity]|].
  split; [right; now left|].
  apply (one_bad_price_spoils_the_window
           [mkPricePoint 100 JNull; mkPricePoint nan JNull] [100; nan]);
    [exists (mkPricePoint nan JNull); split; [right; now left | reflexivity]
    | right; now left].
Defined.

Local Close Scope float_scope.

(** ** The revisions compared *)

Lemma mapSales_untagged company grade items :
  FirstRevision.mapSales items =
  match mapTransactions items company grade with
  | Ok ts => Ok (map untagged ts)
  | Throw e => Throw e
  end.
Proof.
  induction items as [|m rest IH]; cbn [FirstRevision.mapSales mapTransactions]; [reflexivity|].
  destruct (getProp m "price"); [|reflexivity].
  destruct (getProp m "date"); [|reflexivity].
  rewrite IH. now destruct (mapTransactions rest company grade).
Qed.

Lemma FirstRevision_getPrices_run id w :
  FirstRevision.getPrices id w =
  (match decodeTransactions (upstream w (sent w) (TransactionsRequest id "PSA" "10.0"))
                            "PSA" "10.0" with
   | Ok ts => Ok (map untagged ts)
   | Throw e => Throw e
   end, logged w [TransactionsRequest id "PSA" "10.0"]).
Proof.
  unfold FirstRevision.getPrices, bind at 1. rewrite fetch_run.
  destruct (upstream w (sent w) _) as [|st [data|]]; cbn [decodeTransactions]; try reflexivity.
  unfold json, bind, ret, lift. cbn [body].
  unfold FirstRevision.salesOf, marketTransactionsOf.
  destruct (getPath data _) as [v|e]; [|reflexivity].
  destruct v; try reflexivity.
  rewrite (mapSales_untagged "PSA" "10.0"). now destruct (mapTransactions _ _ _).
Qed.

Lemma getPrices_PSA_10_run id w :
  getPrices id (Some "PSA") (Some "10.0") w =
  (decodeTransactions (upstream w (sent w) (TransactionsRequest id "PSA" "10.0"))
                      "PSA" "10.0",
   logged w [TransactionsRequest id "PSA" "10.0"]).
Proof.
  rewrite (getPrices_pass id (Some "PSA") (Some "10.0") w eq_refl).
  change (plannedPairs (Some "PSA") (Some "10.0")) with [("PSA", "10.0")].
  rewrite passOver_cons. cbn [fst snd pairRequest].
  destruct (decodeTransactions _ _ _); [|reflexivity].
  now rewrite passOver_nil.
Qed.

(** X11: the aggregator of the first revisions is the later one called with
    PSA and 10.0, the tags dropped: both send the same single sub-query, fail
    alike, and return the same prices and dates in the same order. *)
Theorem first_getPrices_is_the_PSA_10_query id w :
  FirstRevision.getPrices id w =
  (match fst (getPrices id (Some "PSA") (Some "10.0") w) with
   | Ok ts => Ok (map untagged ts)
   | Throw e => Throw e
   end,
   snd (getPrices id (Some "PSA") (Some "10.0") w))
  /\ snd (FirstRevision.getPrices id w) = logged w [TransactionsRequest id "PSA" "10.0"].
Proof.
  rewrite FirstRevision_getPrices_run, getPrices_PSA_10_run. split; reflexivity.
Qed.

(** X12: the handler of the first revisions answers 400 without a PSA
    number and sends nothing; with one it sends the certificate lookup and,
    when that resolves, the one sub-query for PSA 10.0; it answers the prices
    found, an empty list included (it has no fallback), or 500 when either
    call fails. *)
Theorem first_handler_answers psaNumber w :
  (truthy psaNumber = false ->
   FirstRevision.handler psaNumber w
     = (Ok (FirstRevision.ResSend 400 "Please provide a PSA number"), w))
  /\ (forall number, psaNumber = Some number -> truthy psaNumber = true ->
      FirstRevision.handler psaNumber w =
      match decodeId (upstream w (sent w) (CertRequest number)) with
      | Throw _ =>
          (Ok (FirstRevision.ResSend 500 "Error fetching data"),
           logged w [CertRequest number])
      | Ok id =>
          (match decodeTransactions
                   (upstream w (sent w ++ [CertRequest number])
                             (TransactionsRequest id "PSA" "10.0")) "PSA" "10.0" with
           | Ok ts => Ok (FirstRevision.ResJson (map untagged ts))
           | Throw _ => Ok (FirstRevision.ResSend 500 "Error fetching data")
           end,
           logged w [CertRequest number; TransactionsRequest id "PSA" "10.0"])
      end).
Proof.
  split.
  - intros H. unfold FirstRevision.handler.
    destruct psaNumber as [s|]; [rewrite H|]; reflexivity.
  - intros number -> Hs. unfold FirstRevision.handler. rewrite Hs. cbn [negb].
    unfold tryCatch, bind at 1. rewrite getInternalId_plain_run.
    destruct (decodeId _) as [id|e]; [|reflexivity].
    unfold bind. rewrite FirstRevision_getPrices_run, logged_logged. cbn [app sent logged].
    destruct (decodeTransactions _ _ _); reflexivity.
Qed.

Lemma getPrices_keeps_the_clock id gc gn w :
  clock (snd (getPrices id gc gn w)) = clock w
  /\ clockReads (snd (getPrices id gc gn w)) = clockReads w.
Proof. destruct (getPrices_logs id gc gn w) as [k ->]. split; reflexivity. Qed.

Lemma LegacyServer_handler_run host slabNumber gc gn w :
  truthy (Some slabNumber) = true ->
  LegacyServer.handler host (mkQuery (Some slabNumber) gc gn) w =
  match getInternalId_plain slabNumber w with
  | (Throw _, w1) => (Ok (LegacyServer.ResSend 500 "Error fetching data"), w1)
  | (Ok id, w1) =>
      match getPrices id gc gn w1 with
      | (Throw _, w2) => (Ok (LegacyServer.ResSend 500 "Error fetching data"), w2)
      | (Ok prices, w2) =>
          match (if Nat.eqb (List.length prices) 0
                 then getPrices id None None w2 else (Ok prices, w2)) with
          | (Throw _, w3) => (Ok (LegacyServer.ResSend 500 "Error fetching data"), w3)
          | (Ok prices, w3) =>
              match Legacy.calculateConfidence host prices w3 with
              | (Ok confidence, w4) => (Ok (LegacyServer.ResJson prices confidence), w4)
              | (Throw _, w4) => (Ok (LegacyServer.ResSend 500 "Error fetching data"), w4)
              end
          end
      end
  end.
Proof.
  intros Hs. unfold LegacyServer.handler.
  cbn [q_slabNumber q_gradingCompany q_gradeNumber].
  rewrite Hs. cbn [negb]. unfold tryCatch, bind.
  destruct (getInternalId_plain slabNumber w) as [[id|e] w1]; [|reflexivity].
  destruct (getPrices id gc gn w1) as [[prices|e] w2]; [|reflexivity].
  destruct (Nat.eqb (List.length prices) 0).
  - destruct (getPrices id None None w2) as [[prices'|e] w3]; [|reflexivity].
    destruct (Legacy.calculateConfidence host prices' w3) as [[c|e] w4]; reflexivity.
  - unfold ret at 1.
    destruct (Legacy.calculateConfidence host prices w2) as [[c|e] w4]; reflexivity.
Qed.

(** X13: as long as the single-window revision can form its cutoff date, its
    handler and the multi-window one answer alike but for the confidence:
    the same status and text, or the same prices, after the same upstream
    requests.  This is for prices and dates the host's built-ins return on
    (see [Host]). *)
Theorem legacy_and_current_handlers_agree host query w c :
  JsDate.setMonth (LocalTZA host) (clock w (clockReads w))
    (JsDate.getMonth (LocalTZA host) (clock w (clockReads w)) - 1) = Some c ->
  match handler host query w, LegacyServer.handler host query w with
  | (Ok (ResSend code text), w1), (Ok (LegacyServer.ResSend code' text'), w2) =>
      code = code' /\ text = text' /\ sent w1 = sent w2
  | (Ok (ResJson prices _), w1), (Ok (LegacyServer.ResJson prices' _), w2) =>
      prices = prices' /\ sent w1 = sent w2
  | _, _ => False
  end.
Proof.
  intros Hc. destruct query as [slab gc gn].
  destruct (truthy slab) eqn:Hs.
  2:{ rewrite (handler_missing_slabNumber host slab gc gn w Hs).
      unfold LegacyServer.handler. cbn [q_slabNumber].
      destruct slab as [s|]; [rewrite Hs|]; cbn; auto. }
  destruct slab as [slabNumber|]; [|discriminate].
  rewrite (handler_run host slabNumber gc gn w Hs),
    (LegacyServer_handler_run host slabNumber gc gn w Hs).
  rewrite getInternalId_run, getInternalId_plain_run.
  destruct (decodeId _) as [id|e]; [|cbn; auto].
  set (w1 := logged w [CertRequest slabNumber]).
  destruct (getPrices_keeps_the_clock id gc gn w1) as [Hclock Hreads].
  destruct (getPrices id gc gn w1) as [[prices|e] w2]; [|cbn; auto].
  cbn [snd] in Hclock, Hreads.
  destruct (Nat.eqb (List.length prices) 0).
  - destruct (getPrices_keeps_the_clock id None None w2) as [Hclock' Hreads'].
    destruct (getPrices id None None w2) as [[prices'|e] w3]; [|cbn; auto].
    cbn [snd] in Hclock', Hreads'.
    rewrite (Legacy_calculateConfidence_run host prices' w3 c).
    + cbn. auto.
    + rewrite Hclock', Hreads', Hclock, Hreads. exact Hc.
  - rewrite (Legacy_calculateConfidence_run host prices w2 c).
    + cbn. auto.
    + rewrite Hclock, Hreads. exact Hc.
Qed.

(** X14: when the first aggregation comes back empty and the unfiltered one
    returns, the handler has sent the certificate lookup, the whole plan of
    the filters given and then the five sub-queries of the matrix, so a pair
    of the matrix asked for by name is queried twice; the answer carries the
    prices of the second aggregation. *)
Theorem handler_fallback_traffic host slabNumber gc gn w id w1 w2 unfiltered w3 :
  truthy (Some slabNumber) = true ->
  getInternalId slabNumber w = (Ok id, w1) ->
  getPrices id gc gn w1 = (Ok [], w2) ->
  getPrices id None None w2 = (Ok unfiltered, w3) ->
  exists confidence w',
    handler host (mkQuery (Some slabNumber) gc gn) w
      = (Ok (ResJson unfiltered confidence), w')
    /\ sent w' = sent w ++ CertRequest slabNumber
                        :: plannedRequests id gc gn ++ fullMatrix id.
Proof.
  intros Hs Hid Hfirst Hsecond.
  rewrite (handler_run host slabNumber gc gn w Hs), Hid, Hfirst.
  cbn [List.length Nat.eqb]. rewrite Hsecond.
  eexists. eexists. split; [reflexivity|].
  rewrite getInternalId_run in Hid. injection Hid as _ <-.
  rewrite (getPrices_ok_full_plan _ _ _ _ _ _ (getPrices_ok_known _ _ _ _ _ _ Hfirst) Hfirst)
    in Hsecond.
  rewrite (getPrices_ok_full_plan id None None _ _ _ eq_refl Hsecond).
  change (plannedRequests id None None) with (fullMatrix id).
  cbn [sent ticked logged]. now rewrite <- !app_assoc.
Qed.

Lemma handler_fallback_traffic_witness :
  let w := SampleHost.onlyBGS in
  let id := JStr "A1" in
  let w1 := logged w [CertRequest "12345678"] in
  let w2 := logged w1 [TransactionsRequest id "PSA" "10.0"] in
  let found := [mkTransaction (JStr "80.00") (JStr "2024-05-20") "BGS" "9.5";
                mkTransaction (JStr "120.00") (JStr "2024-05-25") "BGS" "9.5"] in
  truthy (Some "12345678") = true
  /\ getInternalId "12345678" w = (Ok id, w1)
  /\ getPrices id (Some "PSA") (Some "10.0") w1 = (Ok [], w2)
  /\ getPrices id None None w2 = (Ok found, logged w2 (fullMatrix id))
  /\ exists confidence w',
       handler SampleHost.host (mkQuery (Some "12345678") (Some "PSA") (Some "10.0")) w
         = (Ok (ResJson found confidence), w')
       /\ sent w' = sent w ++ CertRequest "12345678"
                           :: plannedRequests id (Some "PSA") (Some "10.0")
                              ++ fullMatrix id.
Proof.
  cbv zeta. repeat (split; [vm_compute; reflexivity|]).
  apply (handler_fallback_traffic SampleHost.host "12345678" (Some "PSA") (Some "10.0")
           SampleHost.onlyBGS (JStr "A1")
           (logged SampleHost.onlyBGS [CertRequest "12345678"])
           (logged (logged SampleHost.onlyBGS [CertRequest "12345678"])
                   [TransactionsRequest (JStr "A1") "PSA" "10.0"])
           [mkTransaction (JStr "80.00") (JStr "2024-05-20") "BGS" "9.5";
            mkTransaction (JStr "120.00") (JStr "2024-05-25") "BGS" "9.5"]
           (logged (logged (logged SampleHost.onlyBGS [CertRequest "12345678"])
                           [TransactionsRequest (JStr "A1") "PSA" "10.0"])
                   (fullMatrix (JStr "A1"))));
    vm_compute; reflexivity.
Defined.

(** ** Inputs for the properties above *)

Lemma sampleHost_fixedOffset : fixedOffset SampleHost.host 0.
Proof. intros t isUTC. reflexivity. Qed.

Lemma today_inDateRange : inDateRange SampleHost.today.
Proof. unfold inDateRange, SampleHost.today, JsDate.msPerDay. lia. Qed.

Lemma getPrices_is_a_pass_over_its_plan_witness :
  let id := JStr "A1" in
  knownCompanies (Some "BGS") = true
  /\ plannedRequests id (Some "BGS") None
     = [TransactionsRequest id "BGS" "9.0"; TransactionsRequest id "BGS" "9.5";
        TransactionsRequest id "BGS" "10.0"]
  /\ getPrices id (Some "BGS") None SampleWorlds.brokenBGS
     = (Throw FetchError,
        logged SampleWorlds.brokenBGS
          [TransactionsRequest id "BGS" "9.0"; TransactionsRequest id "BGS" "9.5"]).
Proof.
  cbv zeta. split; [reflexivity|]. split; [reflexivity|].
  destruct (getPrices_is_a_pass_over_its_plan (JStr "A1") (Some "BGS") None
              SampleWorlds.brokenBGS eq_refl) as [E _].
  rewrite E. vm_compute. reflexivity.
Defined.

Lemma getPrices_unknown_company_witness :
  truthy (Some "CGC") = true
  /\ lookup "CGC" (gradeNumbers None) = None
  /\ getPrices (JStr "A1") (Some "CGC") (Some "10.0") SampleHost.scenario
     = (Throw TypeError, SampleHost.scenario)
  /\ handler SampleHost.host (mkQuery (Some "12345678") (Some "CGC") (Some "10.0"))
             SampleHost.scenario
     = (Ok (ResSend 500 "Error fetching data"),
        logged SampleHost.scenario [CertRequest "12345678"]).
Proof.
  split; [reflexivity|]. split; [reflexivity|].
  destruct (getPrices_unknown_company (JStr "A1") "CGC" (Some "10.0") SampleHost.scenario
              eq_refl eq_refl) as [E H].
  split; [exact E|]. apply H. reflexivity.
Defined.

Lemma getPrices_returns_what_was_fetched_witness :
  let t := mkTransaction (JStr "105.00") (JStr "2024-05-21") "PSA" "10.0" in
  getPrices (JStr "A1") (Some "PSA") None SampleHost.scenario
    = (Ok SampleWorlds.sales,
       logged SampleHost.scenario (plannedRequests (JStr "A1") (Some "PSA") None))
  /\ In t SampleWorlds.sales
  /\ In (t_gradingCompany t, t_gradeNumber t) (plannedPairs (Some "PSA") None)
  /\ fetchedFrom (upstream SampleHost.scenario) (JStr "A1") t
  /\ t_gradingCompany t = "PSA".
Proof.
  cbv zeta. split; [vm_compute; reflexivity|]. split; [right; now left|].
  destruct (getPrices_returns_what_was_fetched (JStr "A1") (Some "PSA") None
              SampleHost.scenario SampleWorlds.sales
              (logged SampleHost.scenario (plannedRequests (JStr "A1") (Some "PSA") None))
              (mkTransaction (JStr "105.00") (JStr "2024-05-21") "PSA" "10.0"))
    as (Hp & Hf & Hc & _); [vm_compute; reflexivity | right; now left |].
  split; [exact Hp|]. split; [exact Hf | reflexivity].
Defined.

Lemma handler_answers_500_exactly_on_failure_witness :
  truthy (Some "12345678") = true
  /\ fst (getPrices (JStr "A1") None None
            (logged SampleWorlds.brokenBGS [CertRequest "12345678"]))
     = Throw FetchError
  /\ fst (handler SampleHost.host (mkQuery (Some "12345678") None None)
                  SampleWorlds.brokenBGS)
     = Ok (ResSend 500 "Error fetching data").
Proof.
  split; [reflexivity|]. split; [vm_compute; reflexivity|].
  apply (proj2 (handler_answers_500_exactly_on_failure SampleHost.host "12345678"
                  None None SampleWorlds.brokenBGS eq_refl)).
  right. exists (JStr "A1"). split; [vm_compute; reflexivity|].
  left. exists FetchError. vm_compute. reflexivity.
Defined.

Lemma handler_keeps_a_non_empty_result_witness :
  let w := SampleHost.scenario in
  let w1 := logged w [CertRequest "12345678"] in
  let w2 := logged w1 [TransactionsRequest (JStr "A1") "PSA" "10.0"] in
  truthy (Some "12345678") = true
  /\ getInternalId "12345678" w = (Ok (JStr "A1"), w1)
  /\ getPrices (JStr "A1") (Some "PSA") (Some "10.0") w1 = (Ok SampleWorlds.sales, w2)
  /\ SampleWorlds.sales <> []
  /\ exists confidence,
       handler SampleHost.host (mkQuery (Some "12345678") (Some "PSA") (Some "10.0")) w
         = (Ok (ResJson SampleWorlds.sales confidence), ticked w2 4)
       /\ sent w2 = [CertRequest "12345678"; TransactionsRequest (JStr "A1") "PSA" "10.0"].
Proof.
  cbv zeta. split; [reflexivity|]. split; [vm_compute; reflexivity|].
  split; [vm_compute; reflexivity|]. split; [discriminate|].
  destruct (handler_keeps_a_non_empty_result SampleHost.host "12345678"
              (Some "PSA") (Some "10.0") SampleHost.scenario (JStr "A1")
              (logged SampleHost.scenario [CertRequest "12345678"])
              SampleWorlds.sales
              (logged (logged SampleHost.scenario [CertRequest "12345678"])
                      [TransactionsRequest (JStr "A1") "PSA" "10.0"]))
    as (confidence & E & _ & Hsent & _);
    [reflexivity | vm_compute; reflexivity | vm_compute; reflexivity | discriminate |].
  exists confidence. split; [exact E | exact Hsent].
Defined.

Lemma filterPrices_keeps_the_trailing_days_witness :
  let older := mkTransaction (JStr "100.00") (JStr "2024-05-11") "PSA" "10.0" in
  let newer := mkTransaction (JStr "105.00") (JStr "2024-05-21") "PSA" "10.0" in
  fixedOffset SampleHost.host 0
  /\ inDateRange (clock SampleHost.scenario (clockReads SampleHost.scenario))
  /\ 0 <= 7 <= 366
  /\ SampleWorlds.sales = [older; newer]
  /\ newDate SampleHost.host (t_date older) = Some (SampleHost.today - 20 * JsDate.msPerDay)
  /\ newDate SampleHost.host (t_date newer) = Some (SampleHost.today - 10 * JsDate.msPerDay)
  /\ filterPrices SampleHost.host SampleWorlds.sales 7 SampleHost.scenario
     = (Ok [], ticked SampleHost.scenario 1)
  /\ filterPrices SampleHost.host SampleWorlds.sales 10 SampleHost.scenario
     = (Ok [mkPricePoint (parseFloat SampleHost.host (JStr "105.00")) (JStr "2024-05-21")],
        ticked SampleHost.scenario 1).
Proof.
  cbv zeta. split; [apply sampleHost_fixedOffset|]. split; [apply today_inDateRange|].
  split; [lia|]. split; [reflexivity|].
  split; [vm_compute; reflexivity|]. split; [vm_compute; reflexivity|].
  split.
  - destruct (filterPrices_keeps_the_trailing_days SampleHost.host 0 SampleWorlds.sales 7
                SampleHost.scenario sampleHost_fixedOffset today_inDateRange)
      as [E _]; [lia|].
    rewrite E. reflexivity.
  - destruct (filterPrices_keeps_the_trailing_days SampleHost.host 0 SampleWorlds.sales 10
                SampleHost.scenario sampleHost_fixedOffset today_inDateRange)
      as [E _]; [lia|].
    rewrite E. reflexivity.
Defined.

Lemma windows_are_nested_witness :
  fixedOffset SampleHost.host 0
  /\ exists year quarter month week,
       calculateConfidence SampleHost.host SampleWorlds.sales SampleHost.scenario
         = (Ok [("year", year); ("quarter", quarter); ("month", month); ("week", week)],
            ticked SampleHost.scenario 4)
       /\ incl (recentPrices week) (recentPrices month)
       /\ incl (recentPrices month) (recentPrices quarter)
       /\ incl (recentPrices quarter) (recentPrices year).
Proof.
  split; [apply sampleHost_fixedOffset|].
  apply (windows_are_nested SampleHost.host 0 SampleWorlds.sales SampleHost.scenario
           sampleHost_fixedOffset).
  - intros k _. apply today_inDateRange.
  - intros k _. cbn. lia.
Defined.

Lemma legacy_ignores_the_last_four_weeks_witness :
  fixedOffset SampleHost.host 0
  /\ inDateRange (clock SampleHost.scenario (clockReads SampleHost.scenario))
  /\ newDate SampleHost.host (JStr "2024-05-11") = Some 1715385600000
  /\ newDate SampleHost.host (JStr "2024-05-21") = Some 1716249600000
  /\ SampleHost.today - 28 * JsDate.msPerDay < 1715385600000
  /\ Legacy.calculateConfidence SampleHost.host SampleWorlds.sales SampleHost.scenario
     = (Ok Low, ticked SampleHost.scenario 1).
Proof.
  split; [apply sampleHost_fixedOffset|]. split; [apply today_inDateRange|].
  split; [vm_compute; reflexivity|]. split; [vm_compute; reflexivity|].
  split; [vm_compute; reflexivity|].
  apply (legacy_ignores_the_last_four_weeks SampleHost.host 0 SampleWorlds.sales
           SampleHost.scenario sampleHost_fixedOffset today_inDateRange).
  intros t d [<-|[<-|[]]] Hd; vm_compute in Hd; injection Hd as <-; vm_compute; reflexivity.
Defined.

Lemma legacy_and_current_handlers_agree_witness :
  JsDate.setMonth (LocalTZA SampleHost.host) SampleHost.today
    (JsDate.getMonth (LocalTZA SampleHost.host) SampleHost.today - 1)
    = Some 1714521600000
  /\ match handler SampleHost.host (mkQuery (Some "12345678") None None)
                   SampleHost.scenario,
           LegacyServer.handler SampleHost.host (mkQuery (Some "12345678") None None)
                   SampleHost.scenario with
     | (Ok (ResSend code text), w1), (Ok (LegacyServer.ResSend code' text'), w2) =>
         code = code' /\ text = text' /\ sent w1 = sent w2
     | (Ok (ResJson prices _), w1), (Ok (LegacyServer.ResJson prices' _), w2) =>
         prices = prices' /\ sent w1 = sent w2
     | _, _ => False
     end.
Proof.
  split; [vm_compute; reflexivity|].
  apply (legacy_and_current_handlers_agree SampleHost.host
           (mkQuery (Some "12345678") None None) SampleHost.scenario 1714521600000).
  vm_compute. reflexivity.
Defined.
